(** * genai_stack command line: the [start] and [etl] commands

    A shallow embedding of [src/genai_stack/cli.py].  The two commands are
    straight-line Python with [try]/[except ValueError] blocks around calls
    into the rest of the package (the config loader, the component
    registries, the custom-model runner, the ETL loader).  Those callees
    live in other modules of the package, so they are the fields of an
    environment record [Env]; a command is a computation in a small
    exception-and-trace monad that records every call it makes and every
    log line it writes, in program order. *)

From Stdlib Require Import String Ascii List Bool Arith Lia.
From Stdlib Require Import DecimalString DecimalNat.
Import ListNotations.
Open Scope string_scope.
Open Scope list_scope.

(** ** Python strings

    A [string] is read as a Python [str] whose code points are below 256. *)

(** [str.isspace] on one code point below 256: U+0009..U+000D,
    U+001C..U+0020, U+0085 and U+00A0. *)
Definition isspace (c : ascii) : bool :=
  let n := nat_of_ascii c in
  (((9 <=? n) && (n <=? 13)) || ((28 <=? n) && (n <=? 32))
   || (n =? 133) || (n =? 160))%nat.

Fixpoint lstrip (s : string) : string :=
  match s with
  | EmptyString => EmptyString
  | String c s' => if isspace c then lstrip s' else s
  end.

Fixpoint rstrip (s : string) : string :=
  match s with
  | EmptyString => EmptyString
  | String c s' =>
      match rstrip s' with
      | EmptyString => if isspace c then EmptyString else String c EmptyString
      | r => String c r
      end
  end.

(** [s.strip()]: drop the leading run of whitespace, then the trailing one. *)
Definition strip (s : string) : string := rstrip (lstrip s).

(** Every character of [s] is whitespace. *)
Fixpoint all_space (s : string) : bool :=
  match s with
  | EmptyString => true
  | String c s' => isspace c && all_space s'
  end.

(** [s] is not empty and neither begins nor ends with whitespace. *)
Definition first_not_space (s : string) : bool :=
  match s with
  | EmptyString => false
  | String c _ => negb (isspace c)
  end.

Fixpoint last_not_space (s : string) : bool :=
  match s with
  | EmptyString => false
  | String c EmptyString => negb (isspace c)
  | String _ s' => last_not_space s'
  end.

Definition bare (s : string) : bool := first_not_space s && last_not_space s.

(** [not x] for a value that is [None] or a [str]. *)
Definition py_not (x : option string) : bool :=
  match x with
  | None => true
  | Some EmptyString => true
  | Some (String _ _) => false
  end.

(** ** Exceptions *)

(** [ValueError] stands for an instance of [ValueError] or of one of its
    subclasses (what [except ValueError] catches); [OtherError] for an
    instance of any class outside that hierarchy. *)
Inductive PyExc : Type :=
| ValueError (msg : string)
| GenAIStackException (msg : string)
| OtherError (cls : string) (msg : string).

Definition is_ValueError (e : PyExc) : bool :=
  match e with
  | ValueError _ => true
  | _ => false
  end.

(** [str(e)], as interpolated by [f"{e}"]. *)
Definition exc_str (e : PyExc) : string :=
  match e with
  | ValueError msg => msg
  | GenAIStackException msg => msg
  | OtherError _ msg => msg
  end.

(** The outcome of a call: a value, or a raised exception. *)
Inductive Res (A : Type) : Type :=
| Ok (a : A)
| Raise (e : PyExc).
Arguments Ok {A} a.
Arguments Raise {A} e.

(** ** Constants of [genai_stack.constants] *)

(** Modelled from the spec: the module [genai_stack.constants] that defines
    [CUSTOM_MODEL_KEY_NAME] is missing; the spec names the reserved
    sentinel "custom". *)
Definition CUSTOM_MODEL_KEY_NAME : string := "custom".

(** Modelled from the spec: the module [genai_stack.constants] that defines
    [VECTORDB_CONFIG_KEY] is missing; the spec names the section
    [vectordb]. *)
Definition VECTORDB_CONFIG_KEY : string := "vectordb".

(** Modelled from the spec: the module [genai_stack.constants] that defines
    [RETRIEVER_CONFIG_KEY] is missing; the spec names the section
    [retriever]. *)
Definition RETRIEVER_CONFIG_KEY : string := "retriever".

(** Modelled from the spec: the module [genai_stack.constants] that defines
    [MODEL_CONFIG_KEY] is missing; the spec names the section [model]. *)
Definition MODEL_CONFIG_KEY : string := "model".

Section Cli.

(** The objects the commands pass around without inspecting them. *)
Context {VectorDB Retriever Model Loader CustomResult : Type}.

(** ** Observable actions

    One constructor per call out of [cli.py] and per log line, with the
    arguments passed; [TestPrebuilt model] is the evaluation of
    [model not in AVAILABLE_MODEL_MAPS.keys()]. *)

Inductive event : Type :=
| LogWarning (msg : string)
| LogInfo (msg : string)
| CallCreateDefault
| CallConfigLoader (config : option string)
| CallSectionName (config_loader : Loader) (section : string)
| CallGetVectordbClass (name : option string)
| CallVectordbInit (config : option string)
| CallGetRetrieverClass (name : option string)
| CallRetrieverInit (config : option string) (vectordb : option VectorDB)
| TestPrebuilt (model : string)
| CallGetModelClass (model : string)
| CallModelInit (config : option string) (retriever : option Retriever)
| CallRunHttpServer (model_class : Model)
| CallRunCustomModel (config_loader : Loader) (retriver : option Retriever)
                     (config_file : option string)
| CallRunEtlLoader (config_file : option string) (vectordb : VectorDB).

(** ** The rest of the package, as seen from [cli.py]

    A class object is the function that calls it: [get_vectordb_class name]
    yields the constructor that is then applied to [config=config_file]. *)
Record Env : Type := {
  create_default_model_json_file : Res string;
  ConfigLoader : option string -> Res Loader;
  get_config_section_name : Loader -> string -> Res (option string);
  get_vectordb_class :
    option string -> Res (option string -> Res VectorDB);
  get_retriever_class :
    option string ->
    Res (option string -> option VectorDB -> Res Retriever);
  (** [AVAILABLE_MODEL_MAPS.keys()] *)
  AVAILABLE_MODEL_MAPS_keys : list string;
  get_model_class :
    string -> Res (option string -> option Retriever -> Res Model);
  run_http_server : Model -> Res unit;
  run_custom_model :
    Loader -> option Retriever -> option string -> Res CustomResult;
  run_etl_loader : option string -> VectorDB -> Res unit
}.

(** ** The monad: an outcome and the actions performed on the way *)

Definition M (A : Type) : Type := (Res A * list event)%type.

Definition ret {A} (a : A) : M A := (Ok a, []).

Definition bind {A B} (m : M A) (k : A -> M B) : M B :=
  match m with
  | (Ok a, t) => let (r, t') := k a in (r, t ++ t')
  | (Raise e, t) => (Raise e, t)
  end.

Definition raise {A} (e : PyExc) : M A := (Raise e, []).

(** A call into the environment: recorded, then its outcome. *)
Definition call {A} (ev : event) (r : Res A) : M A := (r, [ev]).

Definition logger_warning (msg : string) : M unit := (Ok tt, [LogWarning msg]).
Definition logger_info (msg : string) : M unit := (Ok tt, [LogInfo msg]).

(** [try: body except ValueError as e: handler e] *)
Definition try_except_ValueError {A} (body : M A) (handler : PyExc -> M A)
  : M A :=
  match body with
  | (Raise e, t) =>
      if is_ValueError e
      then let (r, t') := handler e in (r, t ++ t')
      else (Raise e, t)
  | (Ok a, t) => (Ok a, t)
  end.

Notation "x <- m ;; k" := (bind m (fun x => k))
  (at level 61, m at next level, right associativity).
Notation "m ;;; k" := (bind m (fun _ => k))
  (at level 61, right associativity).

(** [model.strip()] on the value read from the config: a [str] has the
    method, [None] has not. *)
Definition py_strip (model : option string) : M string :=
  match model with
  | Some s => ret (strip s)
  | None =>
      raise (OtherError "AttributeError"
               "'NoneType' object has no attribute 'strip'")
  end.

Definition in_keys (model : string) (keys : list string) : bool :=
  existsb (String.eqb model) keys.

(** What [start] returns: the custom runner's value on the custom path,
    [None] after the HTTP server call. *)
Inductive StartRet : Type :=
| RetCustom (v : CustomResult)
| RetNone.

(** ** [start] (cli.py, lines 76-119) *)
Definition start (env : Env) (config_file : option string) : M StartRet :=
  config_file <-
    (if py_not config_file
     then logger_warning "No Config file provided, creating a default one." ;;;
          f <- call CallCreateDefault (create_default_model_json_file env) ;;
          ret (Some f)
     else ret config_file) ;;
  config_loader <-
    call (CallConfigLoader config_file) (ConfigLoader env config_file) ;;
  vectordb_client <-
    try_except_ValueError
      (name <- call (CallSectionName config_loader VECTORDB_CONFIG_KEY)
                    (get_config_section_name env config_loader
                       VECTORDB_CONFIG_KEY) ;;
       cls <- call (CallGetVectordbClass name) (get_vectordb_class env name) ;;
       v <- call (CallVectordbInit config_file) (cls config_file) ;;
       ret (Some v))
      (fun e =>
         logger_warning (" Failed to Initialize VectorDB - " ++ exc_str e)%string ;;;
         ret None) ;;
  retriever <-
    try_except_ValueError
      (name <- call (CallSectionName config_loader RETRIEVER_CONFIG_KEY)
                    (get_config_section_name env config_loader
                       RETRIEVER_CONFIG_KEY) ;;
       cls <- call (CallGetRetrieverClass name)
                   (get_retriever_class env name) ;;
       r <- call (CallRetrieverInit config_file vectordb_client)
                 (cls config_file vectordb_client) ;;
       ret (Some r))
      (fun e =>
         logger_warning (" Failed to Initialize Retriever - " ++ exc_str e)%string ;;;
         ret None) ;;
  model <- call (CallSectionName config_loader MODEL_CONFIG_KEY)
                (get_config_section_name env config_loader MODEL_CONFIG_KEY) ;;
  model <- py_strip model ;;
  if String.eqb model CUSTOM_MODEL_KEY_NAME
  then
    v <- call (CallRunCustomModel config_loader retriever config_file)
              (run_custom_model env config_loader retriever config_file) ;;
    ret (RetCustom v)
  else
    known <- call (TestPrebuilt model)
                  (Ok (in_keys model (AVAILABLE_MODEL_MAPS_keys env))) ;;
    if negb known
    then
      raise (GenAIStackException
               "Unkown Prebuilt Model Provided. Checkout how to run a custom model with GenAI Stack.")
    else
      cls <- call (CallGetModelClass model) (get_model_class env model) ;;
      model_class <- call (CallModelInit config_file retriever)
                          (cls config_file retriever) ;;
      call (CallRunHttpServer model_class)
           (run_http_server env model_class) ;;;
      ret RetNone.

(** The dictionary [etl] logs when no vector database could be set up. *)
Definition default_config_repr : string :=
  "{'name': 'chromadb', 'class_name': 'genai_stack', 'fields': {'persistent_path': '<YOUR DIR PATH TO PERSIST EMBEDDING DATA>'}}".

(** ** [etl] (cli.py, lines 124-147) *)
Definition etl (env : Env) (config_file : option string) : M unit :=
  config_loader <-
    call (CallConfigLoader config_file) (ConfigLoader env config_file) ;;
  vectordb <-
    try_except_ValueError
      (name <- call (CallSectionName config_loader VECTORDB_CONFIG_KEY)
                    (get_config_section_name env config_loader
                       VECTORDB_CONFIG_KEY) ;;
       cls <- call (CallGetVectordbClass name) (get_vectordb_class env name) ;;
       call (CallVectordbInit config_file) (cls config_file))
      (fun e =>
         logger_warning (" Failed to Initialize VectorDB - " ++ exc_str e)%string ;;;
         logger_info ("Set up a default vectordb with these configs: "
                      ++ default_config_repr)%string ;;;
         raise e) ;;
  call (CallRunEtlLoader config_file vectordb)
       (run_etl_loader env config_file vectordb) ;;;
  ret tt.

(** ** The steps of [start], named

    The same code as in [start], cut at the points the properties below
    speak about; [start_steps] shows that running the pieces in sequence is
    [start]. *)

(** Lines 81-84: the effective config file and its loader. *)
Definition load_config (env : Env) (config_file : option string)
  : M (option string * Loader) :=
  config_file <-
    (if py_not config_file
     then logger_warning "No Config file provided, creating a default one." ;;;
          f <- call CallCreateDefault (create_default_model_json_file env) ;;
          ret (Some f)
     else ret config_file) ;;
  config_loader <-
    call (CallConfigLoader config_file) (ConfigLoader env config_file) ;;
  ret (config_file, config_loader).

(** Lines 87-91, the body of the first [try]. *)
Definition vectordb_body (env : Env) (config_loader : Loader)
    (config_file : option string) : M VectorDB :=
  name <- call (CallSectionName config_loader VECTORDB_CONFIG_KEY)
               (get_config_section_name env config_loader
                  VECTORDB_CONFIG_KEY) ;;
  cls <- call (CallGetVectordbClass name) (get_vectordb_class env name) ;;
  call (CallVectordbInit config_file) (cls config_file).

(** Lines 86-94. *)
Definition vectordb_step (env : Env) (config_loader : Loader)
    (config_file : option string) : M (option VectorDB) :=
  try_except_ValueError
    (v <- vectordb_body env config_loader config_file ;; ret (Some v))
    (fun e =>
       logger_warning (" Failed to Initialize VectorDB - " ++ exc_str e)%string ;;;
       ret None).

(** Lines 97-101, the body of the second [try]. *)
Definition retriever_body (env : Env) (config_loader : Loader)
    (config_file : option string) (vectordb_client : option VectorDB)
  : M Retriever :=
  name <- call (CallSectionName config_loader RETRIEVER_CONFIG_KEY)
               (get_config_section_name env config_loader
                  RETRIEVER_CONFIG_KEY) ;;
  cls <- call (CallGetRetrieverClass name) (get_retriever_class env name) ;;
  call (CallRetrieverInit config_file vectordb_client)
       (cls config_file vectordb_client).

(** Lines 96-104. *)
Definition retriever_step (env : Env) (config_loader : Loader)
    (config_file : option string) (vectordb_client : option VectorDB)
  : M (option Retriever) :=
  try_except_ValueError
    (r <- retriever_body env config_loader config_file vectordb_client ;;
     ret (Some r))
    (fun e =>
       logger_warning (" Failed to Initialize Retriever - " ++ exc_str e)%string ;;;
       ret None).

(** Lines 106-119: the model identifier and the path it selects. *)
Definition model_step (env : Env) (config_loader : Loader)
    (config_file : option string) (retriever : option Retriever)
  : M StartRet :=
  model <- call (CallSectionName config_loader MODEL_CONFIG_KEY)
                (get_config_section_name env config_loader MODEL_CONFIG_KEY) ;;
  model <- py_strip model ;;
  if String.eqb model CUSTOM_MODEL_KEY_NAME
  then
    v <- call (CallRunCustomModel config_loader retriever config_file)
              (run_custom_model env config_loader retriever config_file) ;;
    ret (RetCustom v)
  else
    known <- call (TestPrebuilt model)
                  (Ok (in_keys model (AVAILABLE_MODEL_MAPS_keys env))) ;;
    if negb known
    then
      raise (GenAIStackException
               "Unkown Prebuilt Model Provided. Checkout how to run a custom model with GenAI Stack.")
    else
      cls <- call (CallGetModelClass model) (get_model_class env model) ;;
      model_class <- call (CallModelInit config_file retriever)
                          (cls config_file retriever) ;;
      call (CallRunHttpServer model_class)
           (run_http_server env model_class) ;;;
      ret RetNone.

(** Lines 81-104: everything [start] does before it reads the model
    identifier.  The result is the effective config file, the loader, and
    the two optional components. *)
Definition resolve (env : Env) (config_file : option string)
  : M (option string * Loader * option VectorDB * option Retriever) :=
  cc <- load_config env config_file ;;
  v <- vectordb_step env (snd cc) (fst cc) ;;
  r <- retriever_step env (snd cc) (fst cc) v ;;
  ret (fst cc, snd cc, v, r).

Definition start_by_steps (env : Env) (config_file : option string)
  : M StartRet :=
  x <- resolve env config_file ;;
  match x with
  | (cf, cl, _, r) => model_step env cl cf r
  end.

(** ** Reading traces *)

Definition count (p : event -> bool) (t : list event) : nat :=
  length (filter p t).

(** Which part of a run an action belongs to.  A log line can belong to
    any of the first three. *)
Definition setup_event (ev : event) : bool :=
  match ev with
  | LogWarning _ | CallCreateDefault | CallConfigLoader _ => true
  | _ => false
  end.

Definition vectordb_event (ev : event) : bool :=
  match ev with
  | LogWarning _ | CallGetVectordbClass _ | CallVectordbInit _ => true
  | CallSectionName _ k => String.eqb k VECTORDB_CONFIG_KEY
  | _ => false
  end.

Definition retriever_event (ev : event) : bool :=
  match ev with
  | LogWarning _ | CallGetRetrieverClass _ | CallRetrieverInit _ _ => true
  | CallSectionName _ k => String.eqb k RETRIEVER_CONFIG_KEY
  | _ => false
  end.

Definition model_event (ev : event) : bool :=
  match ev with
  | TestPrebuilt _ | CallGetModelClass _ | CallModelInit _ _
  | CallRunHttpServer _ | CallRunCustomModel _ _ _ => true
  | CallSectionName _ k => String.eqb k MODEL_CONFIG_KEY
  | _ => false
  end.

(** The single actions. *)
Definition is_section_read (key : string) (ev : event) : bool :=
  match ev with CallSectionName _ k => String.eqb k key | _ => false end.
Definition is_log (ev : event) : bool :=
  match ev with LogWarning _ | LogInfo _ => true | _ => false end.
Definition is_create_default (ev : event) : bool :=
  match ev with CallCreateDefault => true | _ => false end.
Definition is_vectordb_lookup (ev : event) : bool :=
  match ev with CallGetVectordbClass _ => true | _ => false end.
Definition is_vectordb_init (ev : event) : bool :=
  match ev with CallVectordbInit _ => true | _ => false end.
Definition is_retriever_lookup (ev : event) : bool :=
  match ev with CallGetRetrieverClass _ => true | _ => false end.
Definition is_retriever_init (ev : event) : bool :=
  match ev with CallRetrieverInit _ _ => true | _ => false end.
Definition is_prebuilt_test (ev : event) : bool :=
  match ev with TestPrebuilt _ => true | _ => false end.
Definition is_model_lookup (ev : event) : bool :=
  match ev with CallGetModelClass _ => true | _ => false end.
Definition is_model_init (ev : event) : bool :=
  match ev with CallModelInit _ _ => true | _ => false end.
Definition is_server_start (ev : event) : bool :=
  match ev with CallRunHttpServer _ => true | _ => false end.
Definition is_custom_call (ev : event) : bool :=
  match ev with CallRunCustomModel _ _ _ => true | _ => false end.
Definition is_etl_loader_call (ev : event) : bool :=
  match ev with CallRunEtlLoader _ _ => true | _ => false end.

(** A use of the retriever registry or of the retriever section. *)
Definition uses_retriever (ev : event) : bool :=
  is_section_read RETRIEVER_CONFIG_KEY ev || is_retriever_lookup ev
  || is_retriever_init ev.

(** What a run of [etl] may do. *)
Definition etl_event (ev : event) : bool :=
  match ev with
  | CallConfigLoader _ | LogWarning _ | LogInfo _
  | CallGetVectordbClass _ | CallVectordbInit _ | CallRunEtlLoader _ _ => true
  | CallSectionName _ k => String.eqb k VECTORDB_CONFIG_KEY
  | _ => false
  end.

(** A use of the model registry: the membership test in the prebuilt set,
    the class lookup, the construction. *)
Definition registry_model_event (ev : event) : bool :=
  is_prebuilt_test ev || is_model_lookup ev || is_model_init ev.

(** Each of the resolution actions of [start]. *)
Definition resolution_actions : list (event -> bool) :=
  [ is_section_read VECTORDB_CONFIG_KEY; is_vectordb_lookup; is_vectordb_init;
    is_section_read RETRIEVER_CONFIG_KEY; is_retriever_lookup;
    is_retriever_init;
    is_section_read MODEL_CONFIG_KEY; is_prebuilt_test; is_model_lookup;
    is_model_init; is_server_start; is_custom_call ].

Definition is_some {A} (o : option A) : bool :=
  match o with
  | Some _ => true
  | None => false
  end.

(** The outcome of a call, lifted through a constructor. *)
Definition res_map {A B} (f : A -> B) (r : Res A) : Res B :=
  match r with
  | Ok a => Ok (f a)
  | Raise e => Raise e
  end.

(** ** Comparing runs *)

(** Two outcomes of the same kind: both values, or both exceptions that
    [except ValueError] treats alike. *)
Definition same_kind {A B} (r1 : Res A) (r2 : Res B) : Prop :=
  match r1, r2 with
  | Ok _, Ok _ => True
  | Raise e1, Raise e2 => is_ValueError e1 = is_ValueError e2
  | _, _ => False
  end.

(** Same kind, and the same value when there is one. *)
Definition same_value {A} (r1 r2 : Res A) : Prop :=
  match r1, r2 with
  | Ok a1, Ok a2 => a1 = a2
  | Raise e1, Raise e2 => is_ValueError e1 = is_ValueError e2
  | _, _ => False
  end.

(** Two optional components, as two [try] blocks leave them: both present
    or both absent, or both blocks let the exception through. *)
Definition alike {A} (r1 r2 : Res (option A)) : Prop :=
  match r1, r2 with
  | Ok o1, Ok o2 => is_some o1 = is_some o2
  | Raise _, Raise _ => True
  | _, _ => False
  end.

(** Two invocations see the same configuration documents and a stable
    registry: the same section names are read from the same config file,
    the same identifiers are registered, and a constructor that succeeds in
    one invocation succeeds in the other.  The objects built, and the
    messages of the exceptions raised, may differ. *)
Record stable_registry (e1 e2 : Env) : Prop := {
  stable_default :
    same_value (create_default_model_json_file e1)
               (create_default_model_json_file e2);
  stable_loader :
    forall c, same_kind (ConfigLoader e1 c) (ConfigLoader e2 c);
  stable_section :
    forall c cl1 cl2 k,
      ConfigLoader e1 c = Ok cl1 -> ConfigLoader e2 c = Ok cl2 ->
      same_value (get_config_section_name e1 cl1 k)
                 (get_config_section_name e2 cl2 k);
  stable_vectordb_class :
    forall n, same_kind (get_vectordb_class e1 n) (get_vectordb_class e2 n);
  stable_vectordb_init :
    forall n k1 k2 c,
      get_vectordb_class e1 n = Ok k1 -> get_vectordb_class e2 n = Ok k2 ->
      same_kind (k1 c) (k2 c);
  stable_retriever_class :
    forall n, same_kind (get_retriever_class e1 n) (get_retriever_class e2 n);
  stable_retriever_init :
    forall n k1 k2 c v1 v2,
      get_retriever_class e1 n = Ok k1 -> get_retriever_class e2 n = Ok k2 ->
      is_some v1 = is_some v2 ->
      same_kind (k1 c v1) (k2 c v2);
  stable_keys :
    forall m, in_keys m (AVAILABLE_MODEL_MAPS_keys e1)
              = in_keys m (AVAILABLE_MODEL_MAPS_keys e2)
}.

(** Which optional components a run ended up with: [None] when the run
    stopped before the model identifier was read, otherwise whether the
    vector store and the retriever are present. *)
Definition resolution_pattern (env : Env) (config_file : option string)
  : option (bool * bool) :=
  match fst (resolve env config_file) with
  | Ok (_, _, v, r) => Some (is_some v, is_some r)
  | Raise _ => None
  end.

Inductive ModelPath : Type := PathCustom | PathPrebuilt | PathFatal.

(** The path a trace shows: the custom runner was called, the prebuilt
    registry was used, or neither. *)
Definition path_of_trace (t : list event) : ModelPath :=
  if existsb is_custom_call t then PathCustom
  else if existsb is_model_lookup t then PathPrebuilt
  else PathFatal.

(** The path a run of [start] took. *)
Definition model_path (env : Env) (config_file : option string) : ModelPath :=
  path_of_trace (snd (start env config_file)).

(** The path the model section of a loaded configuration selects. *)
Definition selected_path (env : Env) (config_loader : Loader) : ModelPath :=
  match get_config_section_name env config_loader MODEL_CONFIG_KEY with
  | Ok (Some m) =>
      if String.eqb (strip m) CUSTOM_MODEL_KEY_NAME then PathCustom
      else if in_keys (strip m) (AVAILABLE_MODEL_MAPS_keys env)
           then PathPrebuilt
           else PathFatal
  | _ => PathFatal
  end.

(** The environment [env], with the configuration's model section naming
    [name] instead. *)
Definition with_model_name (env : Env) (name : option string) : Env :=
  {| create_default_model_json_file := create_default_model_json_file env;
     ConfigLoader := ConfigLoader env;
     get_config_section_name := fun cl k =>
       if String.eqb k MODEL_CONFIG_KEY then Ok name
       else get_config_section_name env cl k;
     get_vectordb_class := get_vectordb_class env;
     get_retriever_class := get_retriever_class env;
     AVAILABLE_MODEL_MAPS_keys := AVAILABLE_MODEL_MAPS_keys env;
     get_model_class := get_model_class env;
     run_http_server := run_http_server env;
     run_custom_model := run_custom_model env;
     run_etl_loader := run_etl_loader env |}.

(** ** Blanket readings of the failure and defaulting rules

    The properties below are worded for every failure and for both
    commands; they are compared with the code in the last part. *)

(** Whatever exception the vector database step raises, [start] logs the
    warning, goes on to the retriever section, and hands no vector database
    to the retriever constructor. *)
Definition tolerates_any_vectordb_failure (env : Env)
    (config_file : option string) : Prop :=
  forall cf cl t0 e,
    load_config env config_file = (Ok (cf, cl), t0) ->
    fst (vectordb_body env cl cf) = Raise e ->
    In (LogWarning (" Failed to Initialize VectorDB - " ++ exc_str e)%string)
       (snd (start env config_file)) /\
    In (CallSectionName cl RETRIEVER_CONFIG_KEY) (snd (start env config_file)) /\
    (forall c x, In (CallRetrieverInit c x) (snd (start env config_file)) ->
                 x = None).

(** Whatever exception the retriever step raises, [start] logs the warning
    and goes on to the model section. *)
Definition tolerates_any_retriever_failure (env : Env)
    (config_file : option string) : Prop :=
  forall cf cl t0 v t1 e,
    load_config env config_file = (Ok (cf, cl), t0) ->
    vectordb_step env cl cf = (Ok v, t1) ->
    fst (retriever_body env cl cf v) = Raise e ->
    In (LogWarning (" Failed to Initialize Retriever - " ++ exc_str e)%string)
       (snd (start env config_file)) /\
    In (CallSectionName cl MODEL_CONFIG_KEY) (snd (start env config_file)).

(** Whatever exception the vector database step raises, [etl] logs
    diagnostics and then fails with that exception, without running the
    loader. *)
Definition etl_logs_any_vectordb_failure (env : Env)
    (config_file : option string) : Prop :=
  forall cl e,
    ConfigLoader env config_file = Ok cl ->
    fst (vectordb_body env cl config_file) = Raise e ->
    fst (etl env config_file) = Raise e /\
    0 < count is_log (snd (etl env config_file)) /\
    count is_etl_loader_call (snd (etl env config_file)) = 0.

(** A run generates the default config file before it loads any
    configuration. *)
Definition defaults_before_loading (t : list event) : Prop :=
  exists t1 t2,
    t = t1 ++ CallCreateDefault :: t2 /\
    forall c, ~ In (CallConfigLoader c) t1.

End Cli.

(** ** A concrete installation

    Config files are association lists from section to identifier; the
    registries know the vector databases [chromadb] and [weaviate], the
    retrievers [langchain] and [strict], and the models [gpt3.5] and
    [gpt4all].  Objects are the strings that describe them. *)
Module Demo.

Definition Document : Type := list (string * string).

Fixpoint lookup {A} (k : string) (d : list (string * A)) : option A :=
  match d with
  | [] => None
  | (k', a) :: d' => if String.eqb k k' then Some a else lookup k d'
  end.

Definition show (o : option string) : string :=
  match o with
  | Some s => s
  | None => "None"
  end.

Definition named (n : option string) (s : string) : bool :=
  match n with
  | Some x => String.eqb x s
  | None => false
  end.

(** [host] names the machine an invocation runs on: it is part of every
    object built and of every message; [weaviate] is the outcome of
    connecting to the weaviate server. *)
Definition env (files : list (string * Document)) (host : string)
    (weaviate : Res string)
  : @Env string string string Document nat :=
  {| create_default_model_json_file := Ok "default.json";
     ConfigLoader := fun c =>
       match c with
       | None => Ok []
       | Some path =>
           match lookup path files with
           | Some d => Ok d
           | None => Raise (OtherError "FileNotFoundError" (host ++ ": " ++ path))
           end
       end;
     get_config_section_name := fun d k => Ok (lookup k d);
     get_vectordb_class := fun n =>
       if named n "chromadb"
       then Ok (fun c => Ok (host ++ "/chromadb:" ++ show c))
       else if named n "weaviate"
       then Ok (fun _ => weaviate)
       else Raise (ValueError (host ++ ": unknown vectordb " ++ show n));
     get_retriever_class := fun n =>
       if named n "langchain"
       then Ok (fun c v => Ok (host ++ "/langchain:" ++ show v))
       else if named n "strict"
       then Ok (fun c v =>
                  match v with
                  | Some x => Ok (host ++ "/strict:" ++ x)
                  | None =>
                      Raise (OtherError "AttributeError"
                               (host ++ ": 'NoneType' object has no attribute 'search'"))
                  end)
       else Raise (ValueError (host ++ ": unknown retriever " ++ show n));
     AVAILABLE_MODEL_MAPS_keys := ["gpt3.5"; "gpt4all"];
     get_model_class := fun m =>
       Ok (fun c r => Ok (host ++ "/" ++ m ++ ":" ++ show r));
     run_http_server := fun _ => Ok tt;
     run_custom_model := fun d r c => Ok (List.length d);
     run_etl_loader := fun c v => Ok tt |}%string.

Definition files : list (string * Document) :=
  [ ("default.json", [("model", "gpt3.5")]);
    ("full.json",
      [("vectordb", "chromadb"); ("retriever", "langchain");
       ("model", "gpt3.5")]);
    ("custom.json", [("retriever", "langchain"); ("model", "custom")]);
    ("padded.json", [("model", "  gpt4all ")]);
    ("unknown.json",
      [("vectordb", "chromadb"); ("retriever", "langchain");
       ("model", "llama")]);
    ("novectordb.json", [("retriever", "langchain"); ("model", "gpt3.5")]);
    ("noretriever.json", [("vectordb", "chromadb"); ("model", "gpt3.5")]);
    ("weaviate.json",
      [("vectordb", "weaviate"); ("retriever", "langchain");
       ("model", "gpt3.5")]);
    ("strict.json", [("retriever", "strict"); ("model", "gpt3.5")]) ].

Definition refused : Res string :=
  Raise (OtherError "ConnectionError" "connection refused").

(** Two machines with the same files and registries; on both the weaviate
    server is down. *)
Definition here : @Env string string string Document nat :=
  env files "here" refused.
Definition there : @Env string string string Document nat :=
  env files "there" refused.

(** A machine whose config files lack a usable model section. *)
Definition sparse : @Env string string string Document nat :=
  env [ ("nomodel.json", [("vectordb", "chromadb")]);
        ("blank.json", [("model", "   ")]) ] "here" refused.

End Demo.

(** * The other commands: [list_models] and [install]

    The same style of embedding for the two remaining commands of [cli.py]
    that do more than one call.  Their actions are the messages echoed, the
    calls into the package, and the opening and closing of the options
    file. *)

Definition TAB : string := String (ascii_of_nat 9) EmptyString.
Definition NL : string := String (ascii_of_nat 10) EmptyString.

(** [str(n)] for a non-negative [int]. *)
Definition str_of_nat (n : nat) : string :=
  NilEmpty.string_of_uint (Nat.to_uint n).

Definition is_brace (c : ascii) : bool :=
  Ascii.eqb c "{"%char || Ascii.eqb c "}"%char.

Fixpoint has_brace (s : string) : bool :=
  match s with
  | EmptyString => false
  | String c s' => is_brace c || has_brace s'
  end.

Section Commands.

(** Members of the [Components] enumeration, entries of
    [AVAILABLE_COMPONENTS], installer objects, open files and parsed
    options. *)
Context {Component Sub InstallerObj File Options : Type}.

(** The variable [component] of [install]: the option given on the command
    line, or, once the listing loop has run, a member of [Components]. *)
Inductive ComponentVal : Type :=
| GivenComponent (s : option string)
| ListedComponent (c : Component).

(** The variable [subcomponent], likewise. *)
Inductive SubcomponentVal : Type :=
| GivenSubcomponent (s : option string)
| ListedSubcomponent (x : Sub).

(** [Installer(..., quickstart=True)] or [Installer(..., options=options)]. *)
Inductive InstallMode : Type :=
| Quickstart
| WithOptions (options : Options).

Inductive action : Type :=
| Echo (message : string)
| CallListSupportedModels
| CallInstaller (component : ComponentVal) (subcomponent : SubcomponentVal)
                (mode : InstallMode)
| CallInstall (installer : InstallerObj)
| CallOpen (path : string)
| CallJsonLoad (file : File)
| CloseFile (file : File).

(** What the two commands use of the package and of Python.
    [list_supported_models] gives the models as [f"{model}"] prints them;
    [member_value c] is [f"{c.value}"], [member_bool c] is [bool(c)];
    [AVAILABLE_COMPONENTS c] is the subscription, which can raise
    [KeyError], iterated; [format_braces] is [str.format] on a string that
    contains a brace. *)
Record Package : Type := {
  list_supported_models : Res (list string);
  Components : list Component;
  member_value : Component -> string;
  member_bool : Component -> bool;
  AVAILABLE_COMPONENTS : Component -> Res (list Sub);
  sub_str : Sub -> string;
  sub_bool : Sub -> bool;
  format_braces : string -> Res string;
  new_Installer :
    ComponentVal -> SubcomponentVal -> InstallMode -> Res InstallerObj;
  installer_install : InstallerObj -> Res unit;
  open_read : string -> Res File;
  json_load : File -> Res Options
}.

Definition Run (A : Type) : Type := (Res A * list action)%type.

Definition done {A} (a : A) : Run A := (Ok a, []).

Definition and_then {A B} (m : Run A) (k : A -> Run B) : Run B :=
  match m with
  | (Ok a, t) => let (r, t') := k a in (r, t ++ t')
  | (Raise e, t) => (Raise e, t)
  end.

(** A call that is recorded, and an operation that is not. *)
Definition perform {A} (a : action) (r : Res A) : Run A := (r, [a]).
Definition lift {A} (r : Res A) : Run A := (r, []).

Definition click_echo (message : string) : Run unit := (Ok tt, [Echo message]).

Notation "x <- m ;; k" := (and_then m (fun x => k))
  (at level 61, m at next level, right associativity).
Notation "m ;;; k" := (and_then m (fun _ => k))
  (at level 61, right associativity).

(** [with open(path, "r") as file: body]: the file is closed when the body
    is left, by its end or by an exception. *)
Definition with_open {A} (pkg : Package) (path : string)
    (body : File -> Run A) : Run A :=
  match open_read pkg path with
  | Raise e => (Raise e, [CallOpen path])
  | Ok file =>
      let (r, t) := body file in (r, CallOpen path :: t ++ [CloseFile file])
  end.

(** ** [list_models] (cli.py, lines 64-71) *)

(** The loop [for indx, model in enumerate(...)], from index [indx] on. *)
Fixpoint echo_models (indx : nat) (models : list string) : Run unit :=
  match models with
  | [] => done tt
  | model :: rest =>
      click_echo (str_of_nat (indx + 1) ++ ". " ++ model)%string ;;;
      echo_models (S indx) rest
  end.

Definition list_models (pkg : Package) : Run unit :=
  click_echo ("Available List of models" ++ NL)%string ;;;
  models <- perform CallListSupportedModels (list_supported_models pkg) ;;
  echo_models 0 models.

(** ** [install] (cli.py, lines 176-196) *)

(** [bool(component)] and [bool(subcomponent)]. *)
Definition component_bool (pkg : Package) (v : ComponentVal) : bool :=
  match v with
  | GivenComponent s => negb (py_not s)
  | ListedComponent c => member_bool pkg c
  end.

Definition subcomponent_bool (pkg : Package) (v : SubcomponentVal) : bool :=
  match v with
  | GivenSubcomponent s => negb (py_not s)
  | ListedSubcomponent x => sub_bool pkg x
  end.

(** [comp_string.format(components=comp_string)] *)
Definition str_format (pkg : Package) (s : string) : Res string :=
  if has_brace s then format_braces pkg s else Ok s.

(** The inner loop, lines 183-184. *)
Fixpoint subcomponents_loop (pkg : Package) (subs : list Sub)
    (comp_string : string) (subcomponent : SubcomponentVal)
  : string * SubcomponentVal :=
  match subs with
  | [] => (comp_string, subcomponent)
  | x :: rest =>
      subcomponents_loop pkg rest
        (comp_string ++ TAB ++ TAB ++ TAB ++ " * " ++ sub_str pkg x ++ " "
         ++ NL)%string
        (ListedSubcomponent x)
  end.

(** The outer loop, lines 180-184, from index [idx] on.  Both loop
    variables are the function's own [component] and [subcomponent]. *)
Fixpoint components_loop (pkg : Package) (idx : nat)
    (members : list Component) (comp_string : string)
    (component : ComponentVal) (subcomponent : SubcomponentVal)
  : Res (string * ComponentVal * SubcomponentVal) :=
  match members with
  | [] => Ok (comp_string, component, subcomponent)
  | c :: rest =>
      let comp_string :=
        (comp_string ++ TAB ++ " " ++ str_of_nat (idx + 1) ++ ". "
         ++ member_value pkg c ++ " " ++ NL)%string in
      let comp_string :=
        (comp_string ++ TAB ++ TAB ++ " Subcomponents: " ++ NL)%string in
      match AVAILABLE_COMPONENTS pkg c with
      | Raise e => Raise e
      | Ok subs =>
          let (comp_string, subcomponent) :=
            subcomponents_loop pkg subs comp_string subcomponent in
          components_loop pkg (S idx) rest comp_string (ListedComponent c)
            subcomponent
      end
  end.

Definition install (pkg : Package) (component subcomponent : option string)
    (list_components quickstart : bool) (config_file : option string)
  : Run unit :=
  vars <-
    (if list_components
     then
       click_echo "Available components for installation" ;;;
       st <- lift (components_loop pkg 0 (Components pkg)
                     ("Components: " ++ NL)%string
                     (GivenComponent component)
                     (GivenSubcomponent subcomponent)) ;;
       match st with
       | (comp_string, component, subcomponent) =>
           text <- lift (str_format pkg comp_string) ;;
           click_echo text ;;;
           done (component, subcomponent)
       end
     else done (GivenComponent component, GivenSubcomponent subcomponent)) ;;
  match vars with
  | (component, subcomponent) =>
      if component_bool pkg component && subcomponent_bool pkg subcomponent
      then
        if quickstart
        then
          installer <-
            perform (CallInstaller component subcomponent Quickstart)
                    (new_Installer pkg component subcomponent Quickstart) ;;
          perform (CallInstall installer) (installer_install pkg installer)
        else
          match config_file with
          | Some (String _ _ as path) =>
              with_open pkg path (fun file =>
                options <- perform (CallJsonLoad file) (json_load pkg file) ;;
                installer <-
                  perform (CallInstaller component subcomponent
                             (WithOptions options))
                          (new_Installer pkg component subcomponent
                             (WithOptions options)) ;;
                perform (CallInstall installer)
                        (installer_install pkg installer))
          | _ => done tt
          end
      else done tt
  end.

(** ** Reading the actions *)

Definition tally (p : action -> bool) (t : list action) : nat :=
  length (filter p t).

Definition is_installer_call (a : action) : bool :=
  match a with CallInstaller _ _ _ | CallInstall _ => true | _ => false end.
Definition is_open (a : action) : bool :=
  match a with CallOpen _ => true | _ => false end.
Definition is_close (a : action) : bool :=
  match a with CloseFile _ => true | _ => false end.

End Commands.

(** ** A concrete package for the two commands *)
Module DemoPackage.

(** The components are named by their values; the options file holds the
    options as text. *)
Definition pkg (models : Res (list string)) (members : list string)
  : @Package string string string string string :=
  {| list_supported_models := models;
     Components := members;
     member_value := fun c => c;
     member_bool := fun _ => true;
     AVAILABLE_COMPONENTS := fun c =>
       if String.eqb c "vectordb" then Ok ["weaviate"; "chromadb"]
       else if String.eqb c "llm_cache" then Ok ["gptcache"]
       else Raise (OtherError "KeyError" c);
     sub_str := fun x => x;
     sub_bool := fun x => negb (py_not (Some x));
     format_braces := fun s => Raise (ValueError "Single '}' encountered in format string");
     new_Installer := fun c x mode =>
       Ok (match mode with
           | Quickstart => "quickstart"
           | WithOptions o => o
           end);
     installer_install := fun _ => Ok tt;
     open_read := fun path =>
       if String.eqb path "options.json" then Ok "options.json"
       else Raise (OtherError "FileNotFoundError" path);
     json_load := fun file =>
       if String.eqb file "options.json" then Ok "{}"
       else Raise (ValueError "Expecting value") |}.

Definition models : list string := ["gpt3.5"; "gpt4all"].

(** The package as installed, and one whose enumeration has a member
    without entry. *)
Definition installed : @Package string string string string string :=
  pkg (Ok models) ["vectordb"; "llm_cache"].
Definition incomplete : @Package string string string string string :=
  pkg (Ok models) ["vectordb"; "memory"; "llm_cache"].

End DemoPackage.

(** * Properties *)

(** ** [strip] *)

Lemma lstrip_all_space s : all_space s = true -> lstrip s = EmptyString.
Proof.
  induction s as [|c s IH]; simpl; [reflexivity|].
  intros H. apply andb_true_iff in H as [Hc Hs]. rewrite Hc. auto.
Qed.

Lemma rstrip_all_space s : all_space s = true -> rstrip s = EmptyString.
Proof.
  induction s as [|c s IH]; simpl; [reflexivity|].
  intros H. apply andb_true_iff in H as [Hc Hs]. now rewrite IH, Hc.
Qed.

Lemma lstrip_app_space l s :
  all_space l = true -> lstrip (l ++ s)%string = lstrip s.
Proof.
  induction l as [|c l IH]; simpl; [reflexivity|].
  intros H. apply andb_true_iff in H as [Hc Hl]. rewrite Hc. auto.
Qed.

Lemma rstrip_app_space s r :
  all_space r = true -> rstrip (s ++ r)%string = rstrip s.
Proof.
  intros Hr. induction s as [|c s IH]; simpl.
  - now apply rstrip_all_space.
  - now rewrite IH.
Qed.

Lemma lstrip_app s r :
  lstrip (s ++ r)%string =
  match lstrip s with
  | EmptyString => lstrip r
  | x => (x ++ r)%string
  end.
Proof.
  induction s as [|c s IH]; simpl.
  - now destruct (lstrip r).
  - destruct (isspace c); [exact IH | reflexivity].
Qed.

Lemma strip_padded l s r :
  all_space l = true -> all_space r = true ->
  strip (l ++ s ++ r)%string = strip s.
Proof.
  intros Hl Hr. unfold strip.
  rewrite (lstrip_app_space l _ Hl), lstrip_app.
  destruct (lstrip s) as [|c x] eqn:Hs.
  - now rewrite (lstrip_all_space r Hr).
  - now rewrite rstrip_app_space.
Qed.

Lemma rstrip_last_not_space s : last_not_space s = true -> rstrip s = s.
Proof.
  induction s as [|c s IH]; [discriminate|].
  destruct s as [|c' s'].
  - simpl. intros H. apply negb_true_iff in H. now rewrite H.
  - intros H. change (last_not_space (String c' s') = true) in H.
    change (rstrip (String c (String c' s')))
      with (match rstrip (String c' s') with
            | EmptyString =>
                if isspace c then EmptyString else String c EmptyString
            | x => String c x
            end).
    now rewrite (IH H).
Qed.

Lemma strip_bare s : bare s = true -> strip s = s.
Proof.
  unfold bare, strip. intros H. apply andb_true_iff in H as [Hf Hl].
  destruct s as [|c s']; [discriminate|].
  simpl in Hf. apply negb_true_iff in Hf.
  change (lstrip (String c s')) with (if isspace c then lstrip s' else String c s').
  rewrite Hf. now apply rstrip_last_not_space.
Qed.

Section CliFacts.

Context {VectorDB Retriever Model Loader CustomResult : Type}.
Implicit Types env : @Env VectorDB Retriever Model Loader CustomResult.
Implicit Types t : list (@event VectorDB Retriever Model Loader).
Implicit Types cf config_file : option string.
Implicit Types cl : Loader.

(** ** Monad and trace lemmas *)

Lemma bind_trace {A B} (m : @M VectorDB Retriever Model Loader A) (k : A -> @M VectorDB Retriever Model Loader B) :
  snd (bind m k) =
  snd m ++ match fst m with Ok a => snd (k a) | Raise _ => [] end.
Proof.
  destruct m as [[a|e] t]; simpl.
  - destruct (k a); reflexivity.
  - now rewrite app_nil_r.
Qed.

Lemma bind_result {A B} (m : @M VectorDB Retriever Model Loader A) (k : A -> @M VectorDB Retriever Model Loader B) :
  fst (bind m k) =
  match fst m with Ok a => fst (k a) | Raise e => Raise e end.
Proof.
  destruct m as [[a|e] t]; simpl; [destruct (k a)|]; reflexivity.
Qed.

Lemma bind_ok {A B} (m : @M VectorDB Retriever Model Loader A) (k : A -> @M VectorDB Retriever Model Loader B) a t :
  m = (Ok a, t) -> bind m k = (fst (k a), t ++ snd (k a)).
Proof. intros ->. simpl. now destruct (k a). Qed.

Lemma bind_raise {A B} (m : @M VectorDB Retriever Model Loader A) (k : A -> @M VectorDB Retriever Model Loader B) e t :
  m = (Raise e, t) -> bind m k = (Raise e, t).
Proof. now intros ->. Qed.

Lemma count_app p t1 t2 :
  count p (t1 ++ t2) = count p t1 + count p t2.
Proof. unfold count. now rewrite filter_app, length_app. Qed.

Lemma count_none p q t :
  forallb q t = true ->
  (forall ev, q ev = true -> p ev = false) ->
  count p t = 0.
Proof.
  intros Hq Hpq. unfold count.
  induction t as [|ev t IH]; simpl in *; [reflexivity|].
  apply andb_true_iff in Hq as [Hev Ht].
  rewrite (Hpq _ Hev). auto.
Qed.

(** Case analysis on the next call whose outcome decides the run. *)
Ltac crush_step :=
  match goal with
  | |- context [match ?x with _ => _ end] =>
      lazymatch x with
      | context [match _ with _ => _ end] => fail
      | _ => destruct x eqn:?
      end
  end.

Ltac unfold_monad :=
  unfold py_strip, logger_warning, logger_info, try_except_ValueError,
    bind, call, ret, raise.

Ltac run_all :=
  unfold_monad;
  repeat (crush_step; cbn [fst snd app is_ValueError]).

Lemma start_steps env cf : start env cf = start_by_steps env cf.
Proof.
  unfold start, start_by_steps, resolve, load_config, vectordb_step,
    retriever_step, vectordb_body, retriever_body, model_step.
  unfold_monad.
  repeat (crush_step; cbn [fst snd app is_ValueError]; try reflexivity).
Qed.

(** *** What each step may do *)

Lemma load_config_trace env cf :
  forallb setup_event (snd (load_config env cf)) = true.
Proof. unfold load_config. run_all; reflexivity. Qed.

Lemma vectordb_step_trace env cl cf :
  forallb vectordb_event (snd (vectordb_step env cl cf)) = true.
Proof. unfold vectordb_step, vectordb_body. run_all; reflexivity. Qed.

Lemma retriever_step_trace env cl cf v :
  forallb retriever_event (snd (retriever_step env cl cf v)) = true.
Proof. unfold retriever_step, retriever_body. run_all; reflexivity. Qed.

Lemma model_step_trace env cl cf r :
  forallb model_event (snd (model_step env cl cf r)) = true.
Proof. unfold model_step. run_all; reflexivity. Qed.

(** The trace of [start] is the concatenation of the traces of its steps,
    each step being run only when the previous ones returned. *)
Lemma start_trace_split env cf :
  exists t0 t1 t2 t3,
    snd (start env cf) = t0 ++ t1 ++ t2 ++ t3 /\
    forallb setup_event t0 = true /\
    forallb vectordb_event t1 = true /\
    forallb retriever_event t2 = true /\
    forallb model_event t3 = true.
Proof.
  rewrite start_steps. unfold start_by_steps, resolve.
  pose proof (load_config_trace env cf) as H0.
  destruct (load_config env cf) as [[[cf' cl]|e] t0] eqn:Hload; simpl in H0.
  2:{ exists t0, [], [], []. simpl. now rewrite !app_nil_r. }
  pose proof (vectordb_step_trace env cl cf') as H1.
  pose proof (model_step_trace env cl cf') as H3.
  simpl. destruct (vectordb_step env cl cf') as [[v|e] t1]; simpl in *.
  2:{ exists t0, t1, [], []. simpl. now rewrite !app_nil_r. }
  pose proof (retriever_step_trace env cl cf' v) as H2.
  destruct (retriever_step env cl cf' v) as [[r|e] t2]; simpl in *.
  2:{ exists t0, t1, t2, []. simpl. now rewrite !app_nil_r. }
  specialize (H3 r).
  destruct (model_step env cl cf' r) as [res t3]; simpl in *.
  exists t0, t1, t2, t3. rewrite !app_nil_r, <- !app_assoc. auto.
Qed.

Lemma resolve_no_model_event env cf :
  forallb (fun ev => negb (model_event ev)) (snd (resolve env cf)) = true.
Proof.
  unfold resolve, load_config, vectordb_step, retriever_step, vectordb_body,
    retriever_body.
  run_all; reflexivity.
Qed.

Lemma in_keys_In m keys : in_keys m keys = true <-> In m keys.
Proof.
  unfold in_keys. rewrite existsb_exists. split.
  - intros [x [Hin Heq]]. apply String.eqb_eq in Heq. now subst.
  - intros Hin. exists m. split; [assumption | apply String.eqb_refl].
Qed.

(** *** The trace of [start], step by step *)

Lemma start_trace_steps env cf cf' cl t0 :
  load_config env cf = (Ok (cf', cl), t0) ->
  snd (start env cf) =
    t0 ++ snd (vectordb_step env cl cf') ++
    match fst (vectordb_step env cl cf') with
    | Ok v =>
        snd (retriever_step env cl cf' v) ++
        match fst (retriever_step env cl cf' v) with
        | Ok r => snd (model_step env cl cf' r)
        | Raise _ => []
        end
    | Raise _ => []
    end.
Proof.
  intros Hload. rewrite start_steps. unfold start_by_steps, resolve.
  rewrite !bind_trace, !bind_result, Hload. cbn [fst snd].
  rewrite !bind_trace, !bind_result.
  destruct (vectordb_step env cl cf') as [[v|e] t1]; cbn [fst snd].
  - rewrite !bind_trace, !bind_result.
    destruct (retriever_step env cl cf' v) as [[r|e] t2]; cbn [fst snd ret].
    + now rewrite ?app_nil_r, <- ?app_assoc.
    + now rewrite ?app_nil_r, <- ?app_assoc.
  - now rewrite ?app_nil_r, <- ?app_assoc.
Qed.

(** A [try] block around [body]: the value, the warning and [None] for a
    [ValueError], the exception itself otherwise. *)
Lemma vectordb_step_body env cl cf :
  vectordb_step env cl cf =
    match vectordb_body env cl cf with
    | (Ok v, t) => (Ok (Some v), t)
    | (Raise e, t) =>
        if is_ValueError e
        then (Ok None,
              t ++ [LogWarning
                      (" Failed to Initialize VectorDB - " ++ exc_str e)%string])
        else (Raise e, t)
    end.
Proof.
  unfold vectordb_step.
  destruct (vectordb_body env cl cf) as [[v|e] t]; unfold_monad; simpl.
  - now rewrite app_nil_r.
  - reflexivity.
Qed.

Lemma retriever_step_body env cl cf v :
  retriever_step env cl cf v =
    match retriever_body env cl cf v with
    | (Ok r, t) => (Ok (Some r), t)
    | (Raise e, t) =>
        if is_ValueError e
        then (Ok None,
              t ++ [LogWarning
                      (" Failed to Initialize Retriever - " ++ exc_str e)%string])
        else (Raise e, t)
    end.
Proof.
  unfold retriever_step.
  destruct (retriever_body env cl cf v) as [[r|e] t]; unfold_monad; simpl.
  - now rewrite app_nil_r.
  - reflexivity.
Qed.

Lemma retriever_step_head env cl cf v :
  exists t,
    snd (retriever_step env cl cf v) = CallSectionName cl RETRIEVER_CONFIG_KEY :: t.
Proof.
  unfold retriever_step, retriever_body. run_all; eexists; reflexivity.
Qed.

Lemma model_step_head env cl cf r :
  exists t,
    snd (model_step env cl cf r) = CallSectionName cl MODEL_CONFIG_KEY :: t.
Proof.
  unfold model_step. run_all; eexists; reflexivity.
Qed.

Ltac in_trace H :=
  simpl in H;
  repeat (destruct H as [H|H]; [try discriminate H|]);
  try contradiction.

Lemma retriever_step_init env cl cf v c x :
  In (CallRetrieverInit c x) (snd (retriever_step env cl cf v)) ->
  c = cf /\ x = v.
Proof.
  unfold retriever_step, retriever_body. run_all; intros H; in_trace H;
    now inversion H.
Qed.

Lemma model_step_retriever env cl cf r :
  (forall c x, In (CallModelInit c x) (snd (model_step env cl cf r)) ->
               c = cf /\ x = r) /\
  (forall l x c, In (CallRunCustomModel l x c) (snd (model_step env cl cf r)) ->
                 l = cl /\ x = r /\ c = cf).
Proof.
  unfold model_step.
  run_all; split; intros; in_trace H; inversion H; auto.
Qed.

Lemma forallb_In q t ev : forallb q t = true -> In ev t -> q ev = true.
Proof. intros H Hin. rewrite forallb_forall in H. auto. Qed.

(** *** The model step, path by path *)

Lemma model_step_custom env cl cf r m :
  get_config_section_name env cl MODEL_CONFIG_KEY = Ok (Some m) ->
  strip m = CUSTOM_MODEL_KEY_NAME ->
  model_step env cl cf r =
    (res_map RetCustom (run_custom_model env cl r cf),
     [CallSectionName cl MODEL_CONFIG_KEY; CallRunCustomModel cl r cf]).
Proof.
  intros Hm Hs. unfold model_step. rewrite Hm.
  unfold_monad. cbn [fst snd app]. rewrite Hs. simpl.
  now destruct (run_custom_model env cl r cf).
Qed.

Lemma model_step_unknown env cl cf r m :
  get_config_section_name env cl MODEL_CONFIG_KEY = Ok (Some m) ->
  strip m <> CUSTOM_MODEL_KEY_NAME ->
  ~ In (strip m) (AVAILABLE_MODEL_MAPS_keys env) ->
  model_step env cl cf r =
    (Raise (GenAIStackException
              "Unkown Prebuilt Model Provided. Checkout how to run a custom model with GenAI Stack."),
     [CallSectionName cl MODEL_CONFIG_KEY; TestPrebuilt (strip m)]).
Proof.
  intros Hm Hc Hk. unfold model_step. rewrite Hm.
  apply String.eqb_neq in Hc.
  assert (Hin : in_keys (strip m) (AVAILABLE_MODEL_MAPS_keys env) = false).
  { destruct (in_keys _ _) eqn:E; [|reflexivity].
    apply in_keys_In in E. contradiction. }
  unfold_monad. cbn [fst snd app]. rewrite Hc. cbn [fst snd app].
  rewrite Hin. reflexivity.
Qed.

Lemma start_after_resolve env cf cf' cl v r t :
  resolve env cf = (Ok (cf', cl, v, r), t) ->
  start env cf =
    (fst (model_step env cl cf' r), t ++ snd (model_step env cl cf' r)).
Proof.
  intros Hres. rewrite start_steps. unfold start_by_steps.
  now rewrite (bind_ok _ _ _ _ Hres).
Qed.

(** C1. When the model section names the custom sentinel, [start] makes no
    use of the model registry (no membership test in the prebuilt set, no
    class lookup, no construction) and calls the custom-model runner
    exactly once, with the config loader, the retriever the resolution
    left (possibly none) and the config file; what the runner returns or
    raises is what [start] returns or raises.  The premise [resolve ... =
    Ok ...] says that the run got as far as reading the model section. *)
Theorem start_custom_model env cf cf' cl v r t :
  resolve env cf = (Ok (cf', cl, v, r), t) ->
  get_config_section_name env cl MODEL_CONFIG_KEY
    = Ok (Some CUSTOM_MODEL_KEY_NAME) ->
  start env cf =
    (res_map RetCustom (run_custom_model env cl r cf'),
     t ++ [CallSectionName cl MODEL_CONFIG_KEY;
           CallRunCustomModel cl r cf'])
  /\ count registry_model_event (snd (start env cf)) = 0
  /\ count is_custom_call (snd (start env cf)) = 1.
Proof.
  intros Hres Hm.
  assert (Hstart := start_after_resolve _ _ _ _ _ _ _ Hres).
  rewrite (model_step_custom env cl cf' r _ Hm eq_refl) in Hstart.
  simpl in Hstart. rewrite Hstart. split; [reflexivity|].
  pose proof (resolve_no_model_event env cf) as Hno.
  rewrite Hres in Hno. simpl in Hno. simpl snd.
  rewrite !count_app. split.
  - rewrite (count_none registry_model_event _ t Hno); [reflexivity|].
    now intros [] H.
  - rewrite (count_none is_custom_call _ t Hno); [reflexivity|].
    now intros [] H.
Qed.

(** C2. When the model identifier (as compared by the code, that is after
    [strip]) is neither the custom sentinel nor a key of the prebuilt model
    map, [start] raises [GenAIStackException]; no model class is looked up,
    no model is constructed and no server is started.  The premise
    [resolve ... = Ok ...] says that the run got as far as reading the
    model section. *)
Theorem start_unknown_model env cf cf' cl v r t m :
  resolve env cf = (Ok (cf', cl, v, r), t) ->
  get_config_section_name env cl MODEL_CONFIG_KEY = Ok (Some m) ->
  strip m <> CUSTOM_MODEL_KEY_NAME ->
  ~ In (strip m) (AVAILABLE_MODEL_MAPS_keys env) ->
  start env cf =
    (Raise (GenAIStackException
              "Unkown Prebuilt Model Provided. Checkout how to run a custom model with GenAI Stack."),
     t ++ [CallSectionName cl MODEL_CONFIG_KEY; TestPrebuilt (strip m)])
  /\ count is_model_lookup (snd (start env cf)) = 0
  /\ count is_model_init (snd (start env cf)) = 0
  /\ count is_server_start (snd (start env cf)) = 0
  /\ count is_custom_call (snd (start env cf)) = 0.
Proof.
  intros Hres Hm Hc Hk.
  assert (Hstart := start_after_resolve _ _ _ _ _ _ _ Hres).
  rewrite (model_step_unknown env cl cf' r m Hm Hc Hk) in Hstart.
  simpl in Hstart. rewrite Hstart. split; [reflexivity|].
  pose proof (resolve_no_model_event env cf) as Hno.
  rewrite Hres in Hno. simpl in Hno. simpl snd.
  rewrite !count_app.
  repeat split;
    (rewrite (count_none _ _ t Hno); [reflexivity | now intros [] H]).
Qed.

(** C3 (amended). When the vector database step of [start] (reading the
    section name, looking the class up, or calling it) raises a
    [ValueError], [start] logs the warning, leaves the vector database
    absent and goes on: the next action is the read of the retriever
    section, and a retriever constructor that is called receives no vector
    database. *)
Theorem start_vectordb_degrades env cf cf' cl t0 e :
  load_config env cf = (Ok (cf', cl), t0) ->
  fst (vectordb_body env cl cf') = Raise e ->
  is_ValueError e = true ->
  vectordb_step env cl cf' =
    (Ok None,
     snd (vectordb_body env cl cf') ++
     [LogWarning (" Failed to Initialize VectorDB - " ++ exc_str e)%string]) /\
  (exists t2,
     snd (start env cf) =
       t0 ++ snd (vectordb_body env cl cf') ++
       LogWarning (" Failed to Initialize VectorDB - " ++ exc_str e)%string
       :: CallSectionName cl RETRIEVER_CONFIG_KEY :: t2) /\
  (forall c x, In (CallRetrieverInit c x) (snd (start env cf)) ->
               c = cf' /\ x = None).
Proof.
  intros Hload Hb He.
  assert (Hstep : vectordb_step env cl cf' =
    (Ok None,
     snd (vectordb_body env cl cf') ++
     [LogWarning (" Failed to Initialize VectorDB - " ++ exc_str e)%string])).
  { rewrite vectordb_step_body.
    destruct (vectordb_body env cl cf') as [[x|e'] t]; simpl in Hb;
      [discriminate|].
    injection Hb as ->. now rewrite He. }
  split; [exact Hstep|].
  pose proof (start_trace_steps _ _ _ _ _ Hload) as Htr.
  pose proof (load_config_trace env cf) as H0.
  pose proof (vectordb_step_trace env cl cf') as H1.
  rewrite Hload in H0. rewrite Hstep in Htr, H1. cbn [fst snd] in *.
  split.
  - destruct (retriever_step_head env cl cf' None) as [t2 Ht2].
    rewrite Ht2 in Htr. eexists. rewrite Htr, <- !app_assoc. reflexivity.
  - intros c x Hin. rewrite Htr in Hin.
    apply in_app_or in Hin as [Hin|Hin];
      [now apply (forallb_In _ _ _ H0) in Hin|].
    apply in_app_or in Hin as [Hin|Hin];
      [now apply (forallb_In _ _ _ H1) in Hin|].
    apply in_app_or in Hin as [Hin|Hin];
      [now apply retriever_step_init in Hin|].
    destruct (fst (retriever_step env cl cf' None)) as [r|e']; [|contradiction].
    now apply (forallb_In _ _ _ (model_step_trace env cl cf' r)) in Hin.
Qed.

(** C4 (amended). When the retriever step of [start] raises a
    [ValueError], [start] logs the warning, leaves the retriever absent and
    goes on to the model: the next action is the read of the model section,
    and the model constructor or the custom-model runner, when called,
    receives no retriever. *)
Theorem start_retriever_degrades env cf cf' cl t0 v t1 e :
  load_config env cf = (Ok (cf', cl), t0) ->
  vectordb_step env cl cf' = (Ok v, t1) ->
  fst (retriever_body env cl cf' v) = Raise e ->
  is_ValueError e = true ->
  let t := t0 ++ t1 ++ snd (retriever_body env cl cf' v) ++
           [LogWarning (" Failed to Initialize Retriever - " ++ exc_str e)%string] in
  resolve env cf = (Ok (cf', cl, v, None), t) /\
  (exists t3,
     snd (start env cf) = t ++ CallSectionName cl MODEL_CONFIG_KEY :: t3) /\
  (forall c x, In (CallModelInit c x) (snd (start env cf)) ->
               c = cf' /\ x = None) /\
  (forall l x c, In (CallRunCustomModel l x c) (snd (start env cf)) ->
                 l = cl /\ x = None /\ c = cf').
Proof.
  intros Hload Hv Hb He t.
  assert (Hstep : retriever_step env cl cf' v =
    (Ok None,
     snd (retriever_body env cl cf' v) ++
     [LogWarning (" Failed to Initialize Retriever - " ++ exc_str e)%string])).
  { rewrite retriever_step_body.
    destruct (retriever_body env cl cf' v) as [[x|e'] tb]; simpl in Hb;
      [discriminate|].
    injection Hb as ->. now rewrite He. }
  assert (Hres : resolve env cf = (Ok (cf', cl, v, None), t)).
  { unfold resolve. rewrite (bind_ok _ _ _ _ Hload). cbn [fst snd].
    rewrite (bind_ok _ _ _ _ Hv), (bind_ok _ _ _ _ Hstep). cbn [fst snd ret].
    subst t. now rewrite ?app_nil_r, <- ?app_assoc. }
  split; [exact Hres|].
  rewrite (start_after_resolve _ _ _ _ _ _ _ Hres). cbn [snd].
  pose proof (resolve_no_model_event env cf) as Hno.
  rewrite Hres in Hno. cbn [snd] in Hno.
  destruct (model_step_retriever env cl cf' None) as [Hinit Hcustom].
  split; [|split].
  - destruct (model_step_head env cl cf' None) as [t3 Ht3].
    rewrite Ht3. now exists t3.
  - intros c x Hin. apply in_app_or in Hin as [Hin|Hin]; [|now apply Hinit].
    now apply (forallb_In _ _ _ Hno) in Hin.
  - intros l x c Hin. apply in_app_or in Hin as [Hin|Hin];
      [|now apply Hcustom].
    now apply (forallb_In _ _ _ Hno) in Hin.
Qed.

(** *** [etl] *)

Lemma vectordb_body_trace env cl cf :
  forallb vectordb_event (snd (vectordb_body env cl cf)) = true.
Proof. unfold vectordb_body. run_all; reflexivity. Qed.

Lemma etl_not_loaded env cf e :
  ConfigLoader env cf = Raise e ->
  etl env cf = (Raise e, [CallConfigLoader cf]).
Proof. intros H. unfold etl. unfold_monad. now rewrite H. Qed.

(** [etl] once the config is loaded, by the outcome of its [try] body. *)
Lemma etl_loaded env cf cl :
  ConfigLoader env cf = Ok cl ->
  etl env cf =
    match vectordb_body env cl cf with
    | (Ok v, t) =>
        (res_map (fun _ => tt) (run_etl_loader env cf v),
         CallConfigLoader cf :: t ++ [CallRunEtlLoader cf v])
    | (Raise e, t) =>
        (Raise e,
         CallConfigLoader cf :: t ++
         if is_ValueError e
         then [LogWarning (" Failed to Initialize VectorDB - " ++ exc_str e)%string;
               LogInfo ("Set up a default vectordb with these configs: "
                        ++ default_config_repr)%string]
         else [])
    end.
Proof.
  intros H. unfold etl, vectordb_body. unfold_monad. rewrite H.
  repeat (crush_step; cbn [fst snd app is_ValueError res_map]);
    reflexivity.
Qed.

Lemma etl_loader_call env cf cl c v :
  ConfigLoader env cf = Ok cl ->
  In (CallRunEtlLoader c v) (snd (etl env cf)) ->
  c = cf /\ fst (vectordb_body env cl cf) = Ok v.
Proof.
  intros Hcl. rewrite (etl_loaded _ _ _ Hcl).
  pose proof (vectordb_body_trace env cl cf) as Hb.
  destruct (vectordb_body env cl cf) as [[x|e'] t]; cbn [fst snd] in *;
    (intros [Hin|Hin]; [discriminate Hin|]);
    (apply in_app_or in Hin as [Hin|Hin];
       [now apply (forallb_In _ _ _ Hb) in Hin|]).
  - destruct Hin as [Hin|[]]. now inversion Hin.
  - destruct (is_ValueError e'); in_trace Hin.
Qed.

(** C5 (amended). When the vector database step of [etl] fails, [etl]
    fails with that same exception and never calls the ETL loader; the
    warning and the info line are logged first when the exception is a
    [ValueError], nothing is logged otherwise.  The loader is called only
    with a vector database that was constructed. *)
Theorem etl_vectordb_failure env cf cl :
  ConfigLoader env cf = Ok cl ->
  (forall e,
      fst (vectordb_body env cl cf) = Raise e ->
      etl env cf =
        (Raise e,
         CallConfigLoader cf :: snd (vectordb_body env cl cf) ++
         if is_ValueError e
         then [LogWarning (" Failed to Initialize VectorDB - " ++ exc_str e)%string;
               LogInfo ("Set up a default vectordb with these configs: "
                        ++ default_config_repr)%string]
         else []) /\
      count is_etl_loader_call (snd (etl env cf)) = 0) /\
  (forall c v,
      In (CallRunEtlLoader c v) (snd (etl env cf)) ->
      c = cf /\ fst (vectordb_body env cl cf) = Ok v).
Proof.
  intros Hcl. split; [|intros c v; now apply etl_loader_call].
  rewrite (etl_loaded _ _ _ Hcl).
  pose proof (vectordb_body_trace env cl cf) as Hb.
  destruct (vectordb_body env cl cf) as [[v|e'] t]; cbn [fst snd] in *;
    intros e He; [discriminate He|].
  injection He as ->. split; [reflexivity|].
  change (CallConfigLoader cf :: ?x) with ([CallConfigLoader cf] ++ x).
  rewrite !count_app, (count_none is_etl_loader_call _ t Hb).
  - now destruct (is_ValueError e).
  - now intros [] H.
Qed.

Lemma etl_trace env cf : forallb etl_event (snd (etl env cf)) = true.
Proof. unfold etl. run_all; reflexivity. Qed.

(** C10. [etl] reads the vectordb section only and uses the vectordb
    registry only: its trace has no read of the retriever or model section,
    no retriever or model lookup, construction or run.  When the vector
    database is constructed, the run is the config load, the vectordb step
    and one call of the ETL loader with the config file and that vector
    database; the loader is called with nothing else. *)
Theorem etl_only_vectordb env cf :
  forallb etl_event (snd (etl env cf)) = true /\
  count uses_retriever (snd (etl env cf)) = 0 /\
  count model_event (snd (etl env cf)) = 0 /\
  (forall c v,
      In (CallRunEtlLoader c v) (snd (etl env cf)) ->
      c = cf /\
      exists cl, ConfigLoader env cf = Ok cl /\
                 fst (vectordb_body env cl cf) = Ok v) /\
  (forall cl v,
      ConfigLoader env cf = Ok cl ->
      fst (vectordb_body env cl cf) = Ok v ->
      etl env cf =
        (res_map (fun _ => tt) (run_etl_loader env cf v),
         CallConfigLoader cf :: snd (vectordb_body env cl cf) ++
         [CallRunEtlLoader cf v])).
Proof.
  pose proof (etl_trace env cf) as Ht.
  split; [exact Ht|].
  split; [|split; [|split]].
  - apply (count_none _ _ _ Ht). intros [] H; try discriminate H; try reflexivity.
    simpl in H. apply String.eqb_eq in H. now subst.
  - apply (count_none _ _ _ Ht). intros [] H; try discriminate H; try reflexivity.
    simpl in H. apply String.eqb_eq in H. now subst.
  - intros c v Hin.
    destruct (ConfigLoader env cf) as [cl|e] eqn:Hcl.
    + destruct (etl_loader_call env cf cl c v Hcl Hin) as [-> Hv].
      split; [reflexivity|]. now exists cl.
    + rewrite (etl_not_loaded _ _ _ Hcl) in Hin. in_trace Hin.
  - intros cl v Hcl Hv. rewrite (etl_loaded _ _ _ Hcl).
    destruct (vectordb_body env cl cf) as [[x|e] t]; cbn [fst snd] in *;
      [|discriminate Hv].
    now injection Hv as ->.
Qed.

(** *** The config file *)

Lemma load_config_default env cf :
  py_not cf = true ->
  load_config env cf =
    match create_default_model_json_file env with
    | Ok f =>
        (res_map (fun cl => (Some f, cl)) (ConfigLoader env (Some f)),
         [LogWarning "No Config file provided, creating a default one.";
          CallCreateDefault; CallConfigLoader (Some f)])
    | Raise e =>
        (Raise e,
         [LogWarning "No Config file provided, creating a default one.";
          CallCreateDefault])
    end.
Proof.
  intros Hn. unfold load_config. rewrite Hn. unfold_monad.
  destruct (create_default_model_json_file env) as [f|e]; [|reflexivity].
  simpl. now destruct (ConfigLoader env (Some f)).
Qed.

Lemma load_config_given env cf :
  py_not cf = false ->
  load_config env cf =
    (res_map (fun cl => (cf, cl)) (ConfigLoader env cf), [CallConfigLoader cf]).
Proof.
  intros Hn. unfold load_config. rewrite Hn. unfold_monad. simpl.
  now destruct (ConfigLoader env cf).
Qed.

Lemma start_trace_load env cf :
  exists t, snd (start env cf) = snd (load_config env cf) ++ t.
Proof.
  rewrite start_steps. unfold start_by_steps, resolve.
  rewrite !bind_trace, <- !app_assoc. eexists. reflexivity.
Qed.

Lemma start_not_loaded env cf e :
  fst (load_config env cf) = Raise e ->
  start env cf = (Raise e, snd (load_config env cf)).
Proof.
  intros H. rewrite start_steps. unfold start_by_steps, resolve.
  destruct (load_config env cf) as [[x|e'] t]; simpl in H; [discriminate|].
  now injection H as ->.
Qed.

Lemma defaults_before_loading_count t :
  defaults_before_loading t -> count is_create_default t <> 0.
Proof.
  intros [t1 [t2 [-> _]]]. rewrite count_app. unfold count at 2. simpl. lia.
Qed.

(** C6 (amended). When [start] is given no config file (or an empty one)
    it logs a warning and generates the default config file before it loads
    any configuration, and it loads the generated file; given a config file
    it loads that one.  [etl] generates no default: its first action is to
    load the config file as given, also when none was given. *)
Theorem config_file_defaulting env cf :
  (if py_not cf
   then
     defaults_before_loading (snd (start env cf)) /\
     match create_default_model_json_file env with
     | Ok f =>
         exists t,
           snd (start env cf) =
             LogWarning "No Config file provided, creating a default one."
             :: CallCreateDefault :: CallConfigLoader (Some f) :: t
     | Raise e =>
         start env cf =
           (Raise e,
            [LogWarning "No Config file provided, creating a default one.";
             CallCreateDefault])
     end
   else exists t, snd (start env cf) = CallConfigLoader cf :: t) /\
  (exists t, snd (etl env cf) = CallConfigLoader cf :: t) /\
  count is_create_default (snd (etl env cf)) = 0 /\
  ~ defaults_before_loading (snd (etl env cf)).
Proof.
  assert (Hetl : count is_create_default (snd (etl env cf)) = 0).
  { apply (count_none _ _ _ (etl_trace env cf)). now intros [] H. }
  split; [|split; [|split]].
  - destruct (start_trace_load env cf) as [t Ht].
    destruct (py_not cf) eqn:Hn.
    + pose proof (load_config_default env cf Hn) as Hl.
      destruct (create_default_model_json_file env) as [f|e].
      * rewrite Hl in Ht. cbn [snd app] in Ht. split.
        -- exists [LogWarning "No Config file provided, creating a default one."],
             (CallConfigLoader (Some f) :: t).
           split; [exact Ht|]. intros c [H|[]]. discriminate H.
        -- now exists t.
      * assert (Hs := start_not_loaded env cf e). rewrite Hl in Hs.
        specialize (Hs eq_refl). cbn [snd] in Hs. split; [|exact Hs].
        rewrite Hs. cbn [snd].
        exists [LogWarning "No Config file provided, creating a default one."], [].
        split; [reflexivity|]. intros c [H|[]]. discriminate H.
    + rewrite (load_config_given env cf Hn) in Ht. now exists t.
  - unfold etl. rewrite bind_trace. eexists. reflexivity.
  - exact Hetl.
  - intros H. now apply defaults_before_loading_count in H.
Qed.

(** *** Order and multiplicity of the steps *)

Lemma start_not_resolved env cf e t :
  resolve env cf = (Raise e, t) -> start env cf = (Raise e, t).
Proof.
  intros H. rewrite start_steps. unfold start_by_steps.
  now rewrite (bind_raise _ _ _ _ H).
Qed.

(** An action on the model side happens after the resolution returned, in
    the model step run with what the resolution left. *)
Lemma start_model_event env cf ev :
  In ev (snd (start env cf)) -> model_event ev = true ->
  exists cf' cl v r t,
    resolve env cf = (Ok (cf', cl, v, r), t) /\
    In ev (snd (model_step env cl cf' r)).
Proof.
  intros Hin Hev.
  pose proof (resolve_no_model_event env cf) as Hno.
  destruct (resolve env cf) as [[[[[cf' cl] v] r]|e] t] eqn:Hres;
    cbn [snd] in Hno.
  - rewrite (start_after_resolve _ _ _ _ _ _ _ Hres) in Hin. cbn [snd] in Hin.
    apply in_app_or in Hin as [Hin|Hin].
    + apply (forallb_In _ _ _ Hno) in Hin. now rewrite Hev in Hin.
    + now exists cf', cl, v, r, t.
  - rewrite (start_not_resolved _ _ _ _ Hres) in Hin. cbn [snd] in Hin.
    apply (forallb_In _ _ _ Hno) in Hin. now rewrite Hev in Hin.
Qed.

(** The retriever constructor is called in the retriever step, run with
    what the vector database step left. *)
Lemma start_retriever_init env cf c x :
  In (CallRetrieverInit c x) (snd (start env cf)) ->
  exists cf' cl t0,
    load_config env cf = (Ok (cf', cl), t0) /\
    c = cf' /\ fst (vectordb_step env cl cf') = Ok x.
Proof.
  intros Hin.
  pose proof (load_config_trace env cf) as H0.
  destruct (load_config env cf) as [[[cf' cl]|e] t0] eqn:Hload;
    cbn [snd] in H0.
  - rewrite (start_trace_steps _ _ _ _ _ Hload) in Hin.
    apply in_app_or in Hin as [Hin|Hin];
      [now apply (forallb_In _ _ _ H0) in Hin|].
    apply in_app_or in Hin as [Hin|Hin];
      [now apply (forallb_In _ _ _ (vectordb_step_trace env cl cf')) in Hin|].
    destruct (fst (vectordb_step env cl cf')) as [v|e] eqn:Hv;
      [|contradiction].
    apply in_app_or in Hin as [Hin|Hin].
    + apply retriever_step_init in Hin as [-> ->]. now exists cf', cl, t0.
    + destruct (fst (retriever_step env cl cf' v)) as [r|e]; [|contradiction].
      now apply (forallb_In _ _ _ (model_step_trace env cl cf' r)) in Hin.
  - assert (Hs := start_not_loaded env cf e). rewrite Hload in Hs.
    rewrite (Hs eq_refl) in Hin. cbn [snd] in Hin.
    now apply (forallb_In _ _ _ H0) in Hin.
Qed.

Lemma start_actions_once env cf :
  Forall (fun p => count p (snd (start env cf)) <= 1) resolution_actions.
Proof.
  unfold resolution_actions, start.
  run_all; repeat constructor.
Qed.

(** *** Each step is run once *)

Lemma count_excluded p q t :
  forallb q t = true ->
  (forall ev, p ev = true -> q ev = false) ->
  count p t = 0.
Proof.
  intros Hq Hp. apply (count_none p q t Hq).
  intros ev Hev. destruct (p ev) eqn:E; [|reflexivity].
  rewrite (Hp ev E) in Hev. discriminate Hev.
Qed.

Lemma resolve_returns env cf cf' cl t0 v t1 r t2 :
  load_config env cf = (Ok (cf', cl), t0) ->
  vectordb_step env cl cf' = (Ok v, t1) ->
  retriever_step env cl cf' v = (Ok r, t2) ->
  resolve env cf = (Ok (cf', cl, v, r), t0 ++ t1 ++ t2).
Proof.
  intros Hload Hv Hr. unfold resolve.
  rewrite (bind_ok _ _ _ _ Hload). cbn [fst snd].
  rewrite (bind_ok _ _ _ _ Hv), (bind_ok _ _ _ _ Hr). cbn [fst snd ret].
  now rewrite ?app_nil_r, <- ?app_assoc.
Qed.

(** An action of one step is counted in that step alone. *)
Lemma start_count_vectordb p env cf cf' cl t0 :
  (forall ev, p ev = true ->
     setup_event ev = false /\ retriever_event ev = false /\
     model_event ev = false) ->
  load_config env cf = (Ok (cf', cl), t0) ->
  count p (snd (start env cf)) = count p (snd (vectordb_step env cl cf')).
Proof.
  intros Hp Hload. rewrite (start_trace_steps _ _ _ _ _ Hload).
  pose proof (load_config_trace env cf) as H0. rewrite Hload in H0.
  cbn [snd] in H0. rewrite !count_app.
  rewrite (count_excluded p _ t0 H0) by (intros ev H; apply (Hp ev H)).
  destruct (fst (vectordb_step env cl cf')) as [v|e]; [|cbn; lia].
  rewrite count_app.
  rewrite (count_excluded p _ _ (retriever_step_trace env cl cf' v))
    by (intros ev H; apply (Hp ev H)).
  destruct (fst (retriever_step env cl cf' v)) as [r|e]; [|cbn; lia].
  rewrite (count_excluded p _ _ (model_step_trace env cl cf' r))
    by (intros ev H; apply (Hp ev H)).
  lia.
Qed.

Lemma start_count_retriever p env cf cf' cl t0 v t1 :
  (forall ev, p ev = true ->
     setup_event ev = false /\ vectordb_event ev = false /\
     model_event ev = false) ->
  load_config env cf = (Ok (cf', cl), t0) ->
  vectordb_step env cl cf' = (Ok v, t1) ->
  count p (snd (start env cf)) = count p (snd (retriever_step env cl cf' v)).
Proof.
  intros Hp Hload Hv. rewrite (start_trace_steps _ _ _ _ _ Hload).
  pose proof (load_config_trace env cf) as H0. rewrite Hload in H0.
  pose proof (vectordb_step_trace env cl cf') as H1. rewrite Hv in H1.
  rewrite Hv. cbn [fst snd] in *. rewrite !count_app.
  rewrite (count_excluded p _ t0 H0) by (intros ev H; apply (Hp ev H)).
  rewrite (count_excluded p _ t1 H1) by (intros ev H; apply (Hp ev H)).
  destruct (fst (retriever_step env cl cf' v)) as [r|e]; [|cbn; lia].
  rewrite (count_excluded p _ _ (model_step_trace env cl cf' r))
    by (intros ev H; apply (Hp ev H)).
  lia.
Qed.

Lemma start_count_model p env cf cf' cl v r t :
  (forall ev, p ev = true -> model_event ev = true) ->
  resolve env cf = (Ok (cf', cl, v, r), t) ->
  count p (snd (start env cf)) = count p (snd (model_step env cl cf' r)).
Proof.
  intros Hp Hres. rewrite (start_after_resolve _ _ _ _ _ _ _ Hres).
  pose proof (resolve_no_model_event env cf) as Hno. rewrite Hres in Hno.
  cbn [snd] in *. rewrite count_app.
  rewrite (count_excluded p _ t Hno); [reflexivity|].
  intros ev H. now rewrite (Hp ev H).
Qed.

Ltac only_here :=
  let H := fresh in
  intros [] H; simpl in *; try discriminate H; repeat split;
  try reflexivity;
  apply String.eqb_eq in H; subst; reflexivity.

(** What the vector database step does exactly once: it reads its
    section; when the name is read it looks the class up; when the class
    is found it calls it with the config file. *)
Lemma vectordb_step_once env cl cf :
  count (is_section_read VECTORDB_CONFIG_KEY)
        (snd (vectordb_step env cl cf)) = 1 /\
  forall n,
    get_config_section_name env cl VECTORDB_CONFIG_KEY = Ok n ->
    count is_vectordb_lookup (snd (vectordb_step env cl cf)) = 1 /\
    In (CallGetVectordbClass n) (snd (vectordb_step env cl cf)) /\
    forall k,
      get_vectordb_class env n = Ok k ->
      count is_vectordb_init (snd (vectordb_step env cl cf)) = 1 /\
      In (CallVectordbInit cf) (snd (vectordb_step env cl cf)).
Proof.
  unfold vectordb_step, vectordb_body. unfold_monad.
  destruct (get_config_section_name env cl VECTORDB_CONFIG_KEY) as [n0|e0]
    eqn:Hn; cbn [fst snd app is_ValueError].
  - destruct (get_vectordb_class env n0) as [k0|e1] eqn:Hk;
      cbn [fst snd app is_ValueError].
    + destruct (k0 cf) as [x|e2]; cbn [fst snd app];
        [|destruct (is_ValueError e2); cbn [fst snd app]];
        (split; [reflexivity|]; intros n [= <-];
         split; [reflexivity|]; split; [simpl; auto|];
         intros k Hk'; split; [reflexivity | simpl; auto]).
    + destruct (is_ValueError e1); cbn [fst snd app];
        (split; [reflexivity|]; intros n [= <-];
         split; [reflexivity|]; split; [simpl; auto|];
         intros k Hk'; congruence).
  - destruct (is_ValueError e0); cbn [fst snd app];
      (split; [reflexivity|]; intros n Hn'; discriminate Hn').
Qed.

(** The same for the retriever step; its constructor is called with the
    config file and the vector database it was handed. *)
Lemma retriever_step_once env cl cf v :
  count (is_section_read RETRIEVER_CONFIG_KEY)
        (snd (retriever_step env cl cf v)) = 1 /\
  forall n,
    get_config_section_name env cl RETRIEVER_CONFIG_KEY = Ok n ->
    count is_retriever_lookup (snd (retriever_step env cl cf v)) = 1 /\
    In (CallGetRetrieverClass n) (snd (retriever_step env cl cf v)) /\
    forall k,
      get_retriever_class env n = Ok k ->
      count is_retriever_init (snd (retriever_step env cl cf v)) = 1 /\
      In (CallRetrieverInit cf v) (snd (retriever_step env cl cf v)).
Proof.
  unfold retriever_step, retriever_body. unfold_monad.
  destruct (get_config_section_name env cl RETRIEVER_CONFIG_KEY) as [n0|e0]
    eqn:Hn; cbn [fst snd app is_ValueError].
  - destruct (get_retriever_class env n0) as [k0|e1] eqn:Hk;
      cbn [fst snd app is_ValueError].
    + destruct (k0 cf v) as [x|e2]; cbn [fst snd app];
        [|destruct (is_ValueError e2); cbn [fst snd app]];
        (split; [reflexivity|]; intros n [= <-];
         split; [reflexivity|]; split; [simpl; auto|];
         intros k Hk'; split; [reflexivity | simpl; auto]).
    + destruct (is_ValueError e1); cbn [fst snd app];
        (split; [reflexivity|]; intros n [= <-];
         split; [reflexivity|]; split; [simpl; auto|];
         intros k Hk'; congruence).
  - destruct (is_ValueError e0); cbn [fst snd app];
      (split; [reflexivity|]; intros n Hn'; discriminate Hn').
Qed.

(** The model step reads its section once.  On the custom path it calls
    the custom runner once, with the retriever it was handed.  Otherwise
    it makes the membership test once; for a prebuilt key it looks the
    class up once; when the class is found it calls it once, with the
    config file and the retriever it was handed; when the model is built
    it starts the server once. *)
Lemma model_step_once env cl cf r :
  let T := snd (model_step env cl cf r) in
  count (is_section_read MODEL_CONFIG_KEY) T = 1 /\
  forall m,
    get_config_section_name env cl MODEL_CONFIG_KEY = Ok (Some m) ->
    if String.eqb (strip m) CUSTOM_MODEL_KEY_NAME
    then
      count is_custom_call T = 1 /\ In (CallRunCustomModel cl r cf) T /\
      count registry_model_event T = 0
    else
      count is_prebuilt_test T = 1 /\ count is_custom_call T = 0 /\
      (In (strip m) (AVAILABLE_MODEL_MAPS_keys env) ->
       count is_model_lookup T = 1 /\ In (CallGetModelClass (strip m)) T /\
       forall k,
         get_model_class env (strip m) = Ok k ->
         count is_model_init T = 1 /\ In (CallModelInit cf r) T /\
         forall model_class,
           k cf r = Ok model_class ->
           count is_server_start T = 1 /\
           In (CallRunHttpServer model_class) T).
Proof.
  intros T. subst T. unfold model_step. unfold_monad.
  destruct (get_config_section_name env cl MODEL_CONFIG_KEY) as [[m0|]|e0];
    cbn [fst snd app].
  2,3: split; [reflexivity|]; intros m Hm; discriminate Hm.
  destruct (String.eqb (strip m0) CUSTOM_MODEL_KEY_NAME) eqn:Hc;
    cbn [fst snd app].
  - destruct (run_custom_model env cl r cf); cbn [fst snd app];
      (split; [reflexivity|]; intros m [= <-]; rewrite Hc;
       split; [reflexivity|]; split; [simpl; auto | reflexivity]).
  - destruct (in_keys (strip m0) (AVAILABLE_MODEL_MAPS_keys env)) eqn:Hk;
      cbn [negb fst snd app].
    + destruct (get_model_class env (strip m0)) as [k0|e1] eqn:Hcls;
        cbn [fst snd app].
      * destruct (k0 cf r) as [mc|e2] eqn:Hmc; cbn [fst snd app].
        -- destruct (run_http_server env mc); cbn [fst snd app];
             (split; [reflexivity|]; intros m [= <-]; rewrite Hc;
              split; [reflexivity|]; split; [reflexivity|]; intros _;
              split; [reflexivity|]; split; [simpl; auto|];
              intros k Hk'; assert (k = k0) by congruence; subst k;
              split; [reflexivity|]; split; [simpl; auto|];
              intros mc' Hmc'; assert (mc' = mc) by congruence; subst mc';
              split; [reflexivity | simpl; auto 6]).
        -- split; [reflexivity|]. intros m [= <-]. rewrite Hc.
           split; [reflexivity|]. split; [reflexivity|]. intros _.
           split; [reflexivity|]. split; [simpl; auto|].
           intros k Hk'. assert (k = k0) by congruence. subst k.
           split; [reflexivity|]. split; [simpl; auto|].
           intros mc' Hmc'. congruence.
      * split; [reflexivity|]. intros m [= <-]. rewrite Hc.
        split; [reflexivity|]. split; [reflexivity|]. intros _.
        split; [reflexivity|]. split; [simpl; auto|].
        intros k Hk'. congruence.
    + split; [reflexivity|]. intros m [= <-]. rewrite Hc.
      split; [reflexivity|]. split; [reflexivity|]. intros Hin.
      apply in_keys_In in Hin. congruence.
Qed.

Lemma in_start_vectordb env cf cf' cl t0 ev :
  load_config env cf = (Ok (cf', cl), t0) ->
  In ev (snd (vectordb_step env cl cf')) -> In ev (snd (start env cf)).
Proof.
  intros Hload Hin. rewrite (start_trace_steps _ _ _ _ _ Hload).
  apply in_or_app. right. apply in_or_app. now left.
Qed.

Lemma in_start_retriever env cf cf' cl t0 v t1 ev :
  load_config env cf = (Ok (cf', cl), t0) ->
  vectordb_step env cl cf' = (Ok v, t1) ->
  In ev (snd (retriever_step env cl cf' v)) -> In ev (snd (start env cf)).
Proof.
  intros Hload Hv Hin. rewrite (start_trace_steps _ _ _ _ _ Hload), Hv.
  cbn [fst snd]. apply in_or_app. right. apply in_or_app. right.
  apply in_or_app. now left.
Qed.

Lemma in_start_model env cf cf' cl v r t ev :
  resolve env cf = (Ok (cf', cl, v, r), t) ->
  In ev (snd (model_step env cl cf' r)) -> In ev (snd (start env cf)).
Proof.
  intros Hres Hin. rewrite (start_after_resolve _ _ _ _ _ _ _ Hres).
  cbn [snd]. apply in_or_app. now right.
Qed.

(** C7. A run of [start] is the setup, then the vector database step,
    then the retriever step, then the model step, in that order, and no
    resolution action (section read, class lookup, construction,
    membership test, server start, custom call) occurs more than once.
    Each step is run exactly once as soon as the steps before it have
    returned: once the config is loaded the vectordb section is read
    exactly once, right after the setup, and the class is looked up and
    called exactly once when the call before it returned; once the vector
    database step has returned, the retriever step runs exactly once, its
    constructor receiving the vector database that step left; once the
    retriever step has returned, the model step runs exactly once, the
    model constructor (or the custom runner) receiving the retriever that
    step left, and its outcome is the outcome of [start]. *)
Theorem start_resolution_order env cf :
  (exists t0 t1 t2 t3,
      snd (start env cf) = t0 ++ t1 ++ t2 ++ t3 /\
      forallb setup_event t0 = true /\
      forallb vectordb_event t1 = true /\
      forallb retriever_event t2 = true /\
      forallb model_event t3 = true) /\
  Forall (fun p => count p (snd (start env cf)) <= 1) resolution_actions /\
  (forall c x,
      In (CallRetrieverInit c x) (snd (start env cf)) ->
      exists cf' cl t0,
        load_config env cf = (Ok (cf', cl), t0) /\
        c = cf' /\ fst (vectordb_step env cl cf') = Ok x) /\
  (forall c x,
      In (CallModelInit c x) (snd (start env cf)) ->
      exists cf' cl v t,
        resolve env cf = (Ok (cf', cl, v, x), t) /\ c = cf') /\
  (forall cf' cl t0,
      load_config env cf = (Ok (cf', cl), t0) ->
      (exists rest,
          snd (start env cf) = t0 ++ snd (vectordb_step env cl cf') ++ rest) /\
      count (is_section_read VECTORDB_CONFIG_KEY) (snd (start env cf)) = 1 /\
      (forall n,
          get_config_section_name env cl VECTORDB_CONFIG_KEY = Ok n ->
          count is_vectordb_lookup (snd (start env cf)) = 1 /\
          In (CallGetVectordbClass n) (snd (start env cf)) /\
          forall k,
            get_vectordb_class env n = Ok k ->
            count is_vectordb_init (snd (start env cf)) = 1 /\
            In (CallVectordbInit cf') (snd (start env cf))) /\
      forall v t1,
        vectordb_step env cl cf' = (Ok v, t1) ->
        (exists rest,
            snd (start env cf) =
              t0 ++ t1 ++ snd (retriever_step env cl cf' v) ++ rest) /\
        count (is_section_read RETRIEVER_CONFIG_KEY) (snd (start env cf)) = 1 /\
        (forall n,
            get_config_section_name env cl RETRIEVER_CONFIG_KEY = Ok n ->
            count is_retriever_lookup (snd (start env cf)) = 1 /\
            In (CallGetRetrieverClass n) (snd (start env cf)) /\
            forall k,
              get_retriever_class env n = Ok k ->
              count is_retriever_init (snd (start env cf)) = 1 /\
              In (CallRetrieverInit cf' v) (snd (start env cf))) /\
        forall r t2,
          retriever_step env cl cf' v = (Ok r, t2) ->
          start env cf =
            (fst (model_step env cl cf' r),
             t0 ++ t1 ++ t2 ++ snd (model_step env cl cf' r)) /\
          count (is_section_read MODEL_CONFIG_KEY) (snd (start env cf)) = 1 /\
          forall m,
            get_config_section_name env cl MODEL_CONFIG_KEY = Ok (Some m) ->
            if String.eqb (strip m) CUSTOM_MODEL_KEY_NAME
            then
              count is_custom_call (snd (start env cf)) = 1 /\
              In (CallRunCustomModel cl r cf') (snd (start env cf)) /\
              count registry_model_event (snd (start env cf)) = 0
            else
              count is_prebuilt_test (snd (start env cf)) = 1 /\
              count is_custom_call (snd (start env cf)) = 0 /\
              (In (strip m) (AVAILABLE_MODEL_MAPS_keys env) ->
               count is_model_lookup (snd (start env cf)) = 1 /\
               In (CallGetModelClass (strip m)) (snd (start env cf)) /\
               forall k,
                 get_model_class env (strip m) = Ok k ->
                 count is_model_init (snd (start env cf)) = 1 /\
                 In (CallModelInit cf' r) (snd (start env cf)) /\
                 forall model_class,
                   k cf' r = Ok model_class ->
                   count is_server_start (snd (start env cf)) = 1 /\
                   In (CallRunHttpServer model_class) (snd (start env cf)))).
Proof.
  split; [apply start_trace_split|].
  split; [apply start_actions_once|].
  split; [apply start_retriever_init|].
  split.
  { intros c x Hin.
    destruct (start_model_event _ _ _ Hin eq_refl)
      as (cf' & cl & v & r & t & Hres & Hin').
    apply model_step_retriever in Hin' as [-> ->].
    now exists cf', cl, v, t. }
  intros cf' cl t0 Hload.
  destruct (vectordb_step_once env cl cf') as [Hv1 Hv2].
  split; [rewrite (start_trace_steps _ _ _ _ _ Hload); eexists; reflexivity|].
  split.
  { rewrite (start_count_vectordb _ env cf cf' cl t0) by (only_here || assumption).
    exact Hv1. }
  split.
  { intros n Hn. destruct (Hv2 n Hn) as [Hl [Hin Hk]].
    split.
    { rewrite (start_count_vectordb _ env cf cf' cl t0)
        by (only_here || assumption). exact Hl. }
    split; [exact (in_start_vectordb _ _ _ _ _ _ Hload Hin)|].
    intros k Hk'. destruct (Hk k Hk') as [Hi Hini].
    split; [|exact (in_start_vectordb _ _ _ _ _ _ Hload Hini)].
    rewrite (start_count_vectordb _ env cf cf' cl t0)
      by (only_here || assumption). exact Hi. }
  intros v t1 Hv.
  destruct (retriever_step_once env cl cf' v) as [Hr1 Hr2].
  split.
  { rewrite (start_trace_steps _ _ _ _ _ Hload), Hv. cbn [fst snd].
    eexists. reflexivity. }
  split.
  { rewrite (start_count_retriever _ env cf cf' cl t0 v t1)
      by (only_here || assumption). exact Hr1. }
  split.
  { intros n Hn. destruct (Hr2 n Hn) as [Hl [Hin Hk]].
    split.
    { rewrite (start_count_retriever _ env cf cf' cl t0 v t1)
        by (only_here || assumption). exact Hl. }
    split; [exact (in_start_retriever _ _ _ _ _ _ _ _ Hload Hv Hin)|].
    intros k Hk'. destruct (Hk k Hk') as [Hi Hini].
    split; [|exact (in_start_retriever _ _ _ _ _ _ _ _ Hload Hv Hini)].
    rewrite (start_count_retriever _ env cf cf' cl t0 v t1)
      by (only_here || assumption). exact Hi. }
  intros r t2 Hr.
  pose proof (resolve_returns _ _ _ _ _ _ _ _ _ Hload Hv Hr) as Hres.
  destruct (model_step_once env cl cf' r) as [Hm1 Hm2].
  assert (Hcount : forall p,
             (forall ev, p ev = true -> model_event ev = true) ->
             count p (snd (start env cf))
             = count p (snd (model_step env cl cf' r))).
  { intros p Hp. exact (start_count_model p _ _ _ _ _ _ _ Hp Hres). }
  assert (Hin : forall ev, In ev (snd (model_step env cl cf' r)) ->
                           In ev (snd (start env cf))).
  { intros ev. exact (in_start_model _ _ _ _ _ _ _ ev Hres). }
  split.
  { rewrite (start_after_resolve _ _ _ _ _ _ _ Hres).
    now rewrite <- !app_assoc. }
  split.
  { rewrite Hcount; [exact Hm1|].
    intros [] H; simpl in *; try discriminate H; exact H. }
  intros m Hm. specialize (Hm2 m Hm).
  destruct (String.eqb (strip m) CUSTOM_MODEL_KEY_NAME).
  - destruct Hm2 as [Hc [Hic Hreg]].
    split; [rewrite Hcount; [exact Hc | now intros []]|].
    split; [exact (Hin _ Hic)|].
    rewrite Hcount; [exact Hreg | now intros []].
  - destruct Hm2 as [Ht [Hc Hkeys]].
    split; [rewrite Hcount; [exact Ht | now intros []]|].
    split; [rewrite Hcount; [exact Hc | now intros []]|].
    intros Hk. destruct (Hkeys Hk) as [Hl [Hil Hcls]].
    split; [rewrite Hcount; [exact Hl | now intros []]|].
    split; [exact (Hin _ Hil)|].
    intros k Hk'. destruct (Hcls k Hk') as [Hi [Hii Hsrv]].
    split; [rewrite Hcount; [exact Hi | now intros []]|].
    split; [exact (Hin _ Hii)|].
    intros mc Hmc. destruct (Hsrv mc Hmc) as [Hs His].
    split; [rewrite Hcount; [exact Hs | now intros []] | exact (Hin _ His)].
Qed.

(** *** The model identifier is stripped *)

Lemma resolve_with_model_name env name cf :
  resolve (with_model_name env name) cf = resolve env cf.
Proof. reflexivity. Qed.

Lemma model_step_same_strip env cl cf r x y :
  strip x = strip y ->
  model_step (with_model_name env (Some x)) cl cf r =
  model_step (with_model_name env (Some y)) cl cf r.
Proof.
  intros H. unfold model_step, with_model_name.
  cbn [get_config_section_name AVAILABLE_MODEL_MAPS_keys get_model_class
       run_http_server run_custom_model].
  rewrite String.eqb_refl. unfold_monad. cbn [fst snd app].
  now rewrite H.
Qed.

Lemma model_step_prebuilt env cl cf r m :
  get_config_section_name env cl MODEL_CONFIG_KEY = Ok (Some m) ->
  strip m <> CUSTOM_MODEL_KEY_NAME ->
  In (strip m) (AVAILABLE_MODEL_MAPS_keys env) ->
  exists t,
    snd (model_step env cl cf r) =
      CallSectionName cl MODEL_CONFIG_KEY :: TestPrebuilt (strip m)
      :: CallGetModelClass (strip m) :: t.
Proof.
  intros Hm Hc Hk. unfold model_step. rewrite Hm.
  apply String.eqb_neq in Hc. apply in_keys_In in Hk.
  unfold_monad. cbn [fst snd app]. rewrite Hc. cbn [fst snd app].
  rewrite Hk. cbn [negb].
  repeat (crush_step; cbn [fst snd app]); eexists; reflexivity.
Qed.

(** C9. The model identifier is stripped before it is compared: a run
    whose model section holds an identifier padded with whitespace is the
    run with the bare identifier.  The custom sentinel padded with
    whitespace takes the custom path: the custom runner is called, the
    registry is not used.  A prebuilt key (one that neither begins nor ends
    with whitespace, and is not the sentinel) padded with whitespace is
    tested and looked up in the prebuilt registry under the key itself.
    More generally the path is the one the stripped identifier selects. *)
Theorem start_model_name_stripped env cf l m r :
  all_space l = true -> all_space r = true ->
  start (with_model_name env (Some (l ++ m ++ r)%string)) cf
    = start (with_model_name env (Some m)) cf /\
  (forall cf' cl v rt t,
      resolve env cf = (Ok (cf', cl, v, rt), t) ->
      (strip m = CUSTOM_MODEL_KEY_NAME ->
       start (with_model_name env (Some (l ++ m ++ r)%string)) cf =
         (res_map RetCustom (run_custom_model env cl rt cf'),
          t ++ [CallSectionName cl MODEL_CONFIG_KEY;
                CallRunCustomModel cl rt cf'])) /\
      (strip m <> CUSTOM_MODEL_KEY_NAME ->
       In (strip m) (AVAILABLE_MODEL_MAPS_keys env) ->
       exists t',
         snd (start (with_model_name env (Some (l ++ m ++ r)%string)) cf) =
           t ++ CallSectionName cl MODEL_CONFIG_KEY :: TestPrebuilt (strip m)
             :: CallGetModelClass (strip m) :: t') /\
      start (with_model_name env
               (Some (l ++ CUSTOM_MODEL_KEY_NAME ++ r)%string)) cf =
        (res_map RetCustom (run_custom_model env cl rt cf'),
         t ++ [CallSectionName cl MODEL_CONFIG_KEY;
               CallRunCustomModel cl rt cf']) /\
      (forall k,
          In k (AVAILABLE_MODEL_MAPS_keys env) ->
          bare k = true ->
          k <> CUSTOM_MODEL_KEY_NAME ->
          exists t',
            snd (start (with_model_name env (Some (l ++ k ++ r)%string)) cf) =
              t ++ CallSectionName cl MODEL_CONFIG_KEY :: TestPrebuilt k
                :: CallGetModelClass k :: t')).
Proof.
  intros Hl Hr.
  assert (Hgen : forall x cf' cl v rt t,
    resolve env cf = (Ok (cf', cl, v, rt), t) ->
    (strip x = CUSTOM_MODEL_KEY_NAME ->
     start (with_model_name env (Some (l ++ x ++ r)%string)) cf =
       (res_map RetCustom (run_custom_model env cl rt cf'),
        t ++ [CallSectionName cl MODEL_CONFIG_KEY;
              CallRunCustomModel cl rt cf'])) /\
    (strip x <> CUSTOM_MODEL_KEY_NAME ->
     In (strip x) (AVAILABLE_MODEL_MAPS_keys env) ->
     exists t',
       snd (start (with_model_name env (Some (l ++ x ++ r)%string)) cf) =
         t ++ CallSectionName cl MODEL_CONFIG_KEY :: TestPrebuilt (strip x)
           :: CallGetModelClass (strip x) :: t')).
  { intros x cf' cl v rt t Hres.
    pose proof (strip_padded l x r Hl Hr) as Hs.
    assert (Hres' : resolve (with_model_name env (Some (l ++ x ++ r)%string)) cf
                    = (Ok (cf', cl, v, rt), t)) by exact Hres.
    assert (Hm : get_config_section_name
                   (with_model_name env (Some (l ++ x ++ r)%string)) cl
                   MODEL_CONFIG_KEY = Ok (Some (l ++ x ++ r)%string))
      by reflexivity.
    rewrite (start_after_resolve _ _ _ _ _ _ _ Hres'). split.
    - intros Hc. rewrite <- Hs in Hc.
      now rewrite (model_step_custom _ cl cf' rt _ Hm Hc).
    - intros Hc Hk. rewrite <- Hs in Hc, Hk.
      destruct (model_step_prebuilt _ cl cf' rt _ Hm Hc Hk) as [t' Ht'].
      exists t'. cbn [snd]. now rewrite Ht', Hs. }
  split.
  - pose proof (strip_padded l m r Hl Hr) as Hs.
    rewrite !start_steps. unfold start_by_steps.
    rewrite !resolve_with_model_name.
    destruct (resolve env cf) as [[[[[cf' cl] v] rt]|e] t]; [|reflexivity].
    cbn [bind]. now rewrite (model_step_same_strip env cl cf' rt _ _ Hs).
  - intros cf' cl v rt t Hres.
    destruct (Hgen m cf' cl v rt t Hres) as [Hc Hp].
    split; [exact Hc|]. split; [exact Hp|]. split.
    + exact (proj1 (Hgen CUSTOM_MODEL_KEY_NAME cf' cl v rt t Hres) eq_refl).
    + intros k Hk Hb Hne.
      destruct (Hgen k cf' cl v rt t Hres) as [_ Hpk].
      rewrite (strip_bare k Hb) in Hpk. now apply Hpk.
Qed.

(** *** Two invocations *)

Lemma call_bind_result {A B} ev (r : Res A)
    (k : A -> @M VectorDB Retriever Model Loader B) :
  fst (bind (call ev r) k) =
  match r with Ok a => fst (k a) | Raise e => Raise e end.
Proof. rewrite bind_result. reflexivity. Qed.

Lemma path_of_trace_app t t' :
  forallb (fun ev => negb (model_event ev)) t = true ->
  path_of_trace (t ++ t') = path_of_trace t'.
Proof.
  intros Hno. unfold path_of_trace. rewrite !existsb_app.
  assert (Hc : existsb is_custom_call t = false).
  { apply not_true_is_false. intros H. apply existsb_exists in H as [ev [Hin Hev]].
    apply (forallb_In _ _ _ Hno) in Hin. now destruct ev. }
  assert (Hm : existsb is_model_lookup t = false).
  { apply not_true_is_false. intros H. apply existsb_exists in H as [ev [Hin Hev]].
    apply (forallb_In _ _ _ Hno) in Hin. now destruct ev. }
  now rewrite Hc, Hm.
Qed.

Lemma model_step_path env cl cf r :
  path_of_trace (snd (model_step env cl cf r)) = selected_path env cl.
Proof.
  unfold model_step, selected_path.
  destruct (get_config_section_name env cl MODEL_CONFIG_KEY) as [[m|]|e];
    unfold_monad; cbn [fst snd app]; try reflexivity.
  destruct (String.eqb (strip m) CUSTOM_MODEL_KEY_NAME).
  - now destruct (run_custom_model env cl r cf).
  - cbn [fst snd app].
    destruct (in_keys (strip m) (AVAILABLE_MODEL_MAPS_keys env));
      cbn [negb fst snd app]; [|reflexivity].
    repeat (crush_step; cbn [fst snd app]); reflexivity.
Qed.

Lemma start_path env cf :
  model_path env cf =
    match fst (resolve env cf) with
    | Ok (_, cl, _, _) => selected_path env cl
    | Raise _ => PathFatal
    end.
Proof.
  unfold model_path.
  pose proof (resolve_no_model_event env cf) as Hno.
  destruct (resolve env cf) as [[[[[cf' cl] v] r]|e] t] eqn:Hres;
    cbn [fst snd] in *.
  - rewrite (start_after_resolve _ _ _ _ _ _ _ Hres). cbn [snd].
    rewrite (path_of_trace_app _ _ Hno). apply model_step_path.
  - rewrite (start_not_resolved _ _ _ _ Hres). cbn [snd].
    rewrite <- (app_nil_r t). now rewrite (path_of_trace_app _ _ Hno).
Qed.

Section Stable.

Variables e1 e2 : @Env VectorDB Retriever Model Loader CustomResult.
Hypothesis Hst : stable_registry e1 e2.

Lemma load_config_stable cf :
  match fst (load_config e1 cf), fst (load_config e2 cf) with
  | Ok (c1, l1), Ok (c2, l2) =>
      c1 = c2 /\ ConfigLoader e1 c1 = Ok l1 /\ ConfigLoader e2 c2 = Ok l2
  | Raise _, Raise _ => True
  | _, _ => False
  end.
Proof.
  destruct (py_not cf) eqn:Hn.
  - rewrite !load_config_default by assumption.
    pose proof (stable_default _ _ Hst) as Hd.
    destruct (create_default_model_json_file e1) as [f1|x1],
             (create_default_model_json_file e2) as [f2|x2];
      simpl in Hd; try contradiction; [|exact I].
    subst f2. cbn [fst].
    pose proof (stable_loader _ _ Hst (Some f1)) as Hl.
    destruct (ConfigLoader e1 (Some f1)) as [l1|x1] eqn:E1,
             (ConfigLoader e2 (Some f1)) as [l2|x2] eqn:E2;
      simpl in *; try contradiction; repeat split; auto.
  - rewrite !load_config_given by assumption. cbn [fst].
    pose proof (stable_loader _ _ Hst cf) as Hl.
    destruct (ConfigLoader e1 cf) as [l1|x1] eqn:E1,
             (ConfigLoader e2 cf) as [l2|x2] eqn:E2;
      simpl in *; try contradiction; repeat split; auto.
Qed.

Lemma vectordb_body_stable c l1 l2 :
  ConfigLoader e1 c = Ok l1 -> ConfigLoader e2 c = Ok l2 ->
  same_kind (fst (vectordb_body e1 l1 c)) (fst (vectordb_body e2 l2 c)).
Proof.
  intros H1 H2. unfold vectordb_body. rewrite !call_bind_result.
  pose proof (stable_section _ _ Hst c l1 l2 VECTORDB_CONFIG_KEY H1 H2) as Hs.
  destruct (get_config_section_name e1 l1 VECTORDB_CONFIG_KEY) as [n1|x1],
           (get_config_section_name e2 l2 VECTORDB_CONFIG_KEY) as [n2|x2];
    simpl in Hs; try contradiction; [|exact Hs].
  subst n2. rewrite !call_bind_result.
  pose proof (stable_vectordb_class _ _ Hst n1) as Hc.
  pose proof (stable_vectordb_init _ _ Hst n1) as Hi.
  destruct (get_vectordb_class e1 n1) as [k1|x1],
           (get_vectordb_class e2 n1) as [k2|x2];
    simpl in Hc; try contradiction; [|exact Hc].
  exact (Hi k1 k2 c eq_refl eq_refl).
Qed.

Lemma retriever_body_stable c l1 l2 v1 v2 :
  ConfigLoader e1 c = Ok l1 -> ConfigLoader e2 c = Ok l2 ->
  is_some v1 = is_some v2 ->
  same_kind (fst (retriever_body e1 l1 c v1)) (fst (retriever_body e2 l2 c v2)).
Proof.
  intros H1 H2 Hv. unfold retriever_body. rewrite !call_bind_result.
  pose proof (stable_section _ _ Hst c l1 l2 RETRIEVER_CONFIG_KEY H1 H2) as Hs.
  destruct (get_config_section_name e1 l1 RETRIEVER_CONFIG_KEY) as [n1|x1],
           (get_config_section_name e2 l2 RETRIEVER_CONFIG_KEY) as [n2|x2];
    simpl in Hs; try contradiction; [|exact Hs].
  subst n2. rewrite !call_bind_result.
  pose proof (stable_retriever_class _ _ Hst n1) as Hc.
  pose proof (stable_retriever_init _ _ Hst n1) as Hi.
  destruct (get_retriever_class e1 n1) as [k1|x1],
           (get_retriever_class e2 n1) as [k2|x2];
    simpl in Hc; try contradiction; [|exact Hc].
  exact (Hi k1 k2 c v1 v2 eq_refl eq_refl Hv).
Qed.

Lemma vectordb_step_stable c l1 l2 :
  ConfigLoader e1 c = Ok l1 -> ConfigLoader e2 c = Ok l2 ->
  alike (fst (vectordb_step e1 l1 c)) (fst (vectordb_step e2 l2 c)).
Proof.
  intros H1 H2. pose proof (vectordb_body_stable c l1 l2 H1 H2) as Hb.
  rewrite !vectordb_step_body.
  destruct (vectordb_body e1 l1 c) as [[x1|x1] t1],
           (vectordb_body e2 l2 c) as [[x2|x2] t2];
    simpl in Hb; try contradiction; [reflexivity|].
  rewrite Hb. now destruct (is_ValueError x2).
Qed.

Lemma retriever_step_stable c l1 l2 v1 v2 :
  ConfigLoader e1 c = Ok l1 -> ConfigLoader e2 c = Ok l2 ->
  is_some v1 = is_some v2 ->
  alike (fst (retriever_step e1 l1 c v1)) (fst (retriever_step e2 l2 c v2)).
Proof.
  intros H1 H2 Hv.
  pose proof (retriever_body_stable c l1 l2 v1 v2 H1 H2 Hv) as Hb.
  rewrite !retriever_step_body.
  destruct (retriever_body e1 l1 c v1) as [[x1|x1] t1],
           (retriever_body e2 l2 c v2) as [[x2|x2] t2];
    simpl in Hb; try contradiction; [reflexivity|].
  rewrite Hb. now destruct (is_ValueError x2).
Qed.

Lemma resolve_stable cf :
  match fst (resolve e1 cf), fst (resolve e2 cf) with
  | Ok (c1, l1, v1, r1), Ok (c2, l2, v2, r2) =>
      c1 = c2 /\ ConfigLoader e1 c1 = Ok l1 /\ ConfigLoader e2 c2 = Ok l2 /\
      is_some v1 = is_some v2 /\ is_some r1 = is_some r2
  | Raise _, Raise _ => True
  | _, _ => False
  end.
Proof.
  unfold resolve. rewrite !bind_result.
  pose proof (load_config_stable cf) as Hl.
  destruct (fst (load_config e1 cf)) as [[c1 l1]|x1],
           (fst (load_config e2 cf)) as [[c2 l2]|x2];
    try contradiction; [|exact I].
  destruct Hl as [<- [H1 H2]]. cbn [fst snd]. rewrite !bind_result.
  pose proof (vectordb_step_stable c1 l1 l2 H1 H2) as Hv.
  destruct (fst (vectordb_step e1 l1 c1)) as [v1|x1],
           (fst (vectordb_step e2 l2 c1)) as [v2|x2];
    simpl in Hv; try contradiction; [|exact I].
  rewrite !bind_result.
  pose proof (retriever_step_stable c1 l1 l2 v1 v2 H1 H2 Hv) as Hr.
  destruct (fst (retriever_step e1 l1 c1 v1)) as [r1|x1],
           (fst (retriever_step e2 l2 c1 v2)) as [r2|x2];
    simpl in Hr; try contradiction; [|exact I].
  cbn [fst ret]. auto.
Qed.

Lemma selected_path_stable c l1 l2 :
  ConfigLoader e1 c = Ok l1 -> ConfigLoader e2 c = Ok l2 ->
  selected_path e1 l1 = selected_path e2 l2.
Proof.
  intros H1 H2. unfold selected_path.
  pose proof (stable_section _ _ Hst c l1 l2 MODEL_CONFIG_KEY H1 H2) as Hs.
  destruct (get_config_section_name e1 l1 MODEL_CONFIG_KEY) as [n1|x1],
           (get_config_section_name e2 l2 MODEL_CONFIG_KEY) as [n2|x2];
    simpl in Hs; try contradiction; [|reflexivity].
  subst n2. destruct n1 as [m|]; [|reflexivity].
  now rewrite (stable_keys _ _ Hst).
Qed.

End Stable.

(** C8. Two invocations of [start] on the same config file, against the
    same documents and a stable registry, end alike: both stop before the
    model section is read or both reach it with the vector store present in
    both or absent in both, likewise the retriever; and both take the same
    model path (custom, prebuilt or neither). *)
Theorem start_outcome_stable
    (e1 e2 : @Env VectorDB Retriever Model Loader CustomResult) cf :
  stable_registry e1 e2 ->
  resolution_pattern e1 cf = resolution_pattern e2 cf /\
  model_path e1 cf = model_path e2 cf.
Proof.
  intros Hst. unfold resolution_pattern. rewrite !start_path.
  pose proof (resolve_stable e1 e2 Hst cf) as H.
  destruct (fst (resolve e1 cf)) as [[[[c1 l1] v1] r1]|x1],
           (fst (resolve e2 cf)) as [[[[c2 l2] v2] r2]|x2];
    try contradiction; [|split; reflexivity].
  destruct H as [<- [H1 [H2 [-> ->]]]].
  split; [reflexivity|].
  exact (selected_path_stable e1 e2 Hst c1 l1 l2 H1 H2).
Qed.

(** ** Further behaviour of [start] and [etl] *)

(** X1. The config loader is called outside every [try]: whatever it raises, a
    [ValueError] included, ends [etl] and [start] at once, before any
    section is read. *)
Theorem config_load_failure_is_fatal env cf e :
  ConfigLoader env cf = Raise e ->
  etl env cf = (Raise e, [CallConfigLoader cf]) /\
  (py_not cf = false -> start env cf = (Raise e, [CallConfigLoader cf])).
Proof.
  intros Hl. split; [now apply etl_not_loaded|].
  intros Hn. pose proof (load_config_given env cf Hn) as Hc.
  rewrite Hl in Hc. cbn [res_map] in Hc.
  assert (Hs := start_not_loaded env cf e). rewrite Hc in Hs.
  exact (Hs eq_refl).
Qed.

(** The same for the generated default: when the loader rejects the file
    that [start] has just generated, [start] ends with that exception. *)
Theorem default_config_load_failure_is_fatal env cf f e :
  py_not cf = true ->
  create_default_model_json_file env = Ok f ->
  ConfigLoader env (Some f) = Raise e ->
  start env cf =
    (Raise e,
     [LogWarning "No Config file provided, creating a default one.";
      CallCreateDefault; CallConfigLoader (Some f)]).
Proof.
  intros Hn Hd Hl. pose proof (load_config_default env cf Hn) as Hc.
  rewrite Hd, Hl in Hc. cbn [res_map] in Hc.
  assert (Hs := start_not_loaded env cf e). rewrite Hc in Hs.
  exact (Hs eq_refl).
Qed.

(** X2. An exception of the vector database step that is no [ValueError]
    leaves [start] unchanged, and nothing runs after the call that raised
    it. *)
Theorem start_vectordb_error_propagates env cf cf' cl t0 e :
  load_config env cf = (Ok (cf', cl), t0) ->
  fst (vectordb_body env cl cf') = Raise e ->
  is_ValueError e = false ->
  start env cf = (Raise e, t0 ++ snd (vectordb_body env cl cf')).
Proof.
  intros Hload Hb He.
  assert (Hstep : vectordb_step env cl cf' =
                  (Raise e, snd (vectordb_body env cl cf'))).
  { rewrite vectordb_step_body.
    destruct (vectordb_body env cl cf') as [[x|e'] t]; simpl in Hb;
      [discriminate|].
    injection Hb as ->. now rewrite He. }
  apply start_not_resolved. unfold resolve.
  rewrite (bind_ok _ _ _ _ Hload). cbn [fst snd].
  now rewrite (bind_raise _ _ _ _ Hstep).
Qed.

(** X3. An exception of the retriever step that is no [ValueError] leaves
    [start] unchanged, after the vector database step; nothing runs after
    the call that raised it, so the model section is never read. *)
Theorem start_retriever_error_propagates env cf cf' cl t0 v t1 e :
  load_config env cf = (Ok (cf', cl), t0) ->
  vectordb_step env cl cf' = (Ok v, t1) ->
  fst (retriever_body env cl cf' v) = Raise e ->
  is_ValueError e = false ->
  start env cf = (Raise e, t0 ++ t1 ++ snd (retriever_body env cl cf' v)).
Proof.
  intros Hload Hv Hb He.
  assert (Hstep : retriever_step env cl cf' v =
                  (Raise e, snd (retriever_body env cl cf' v))).
  { rewrite retriever_step_body.
    destruct (retriever_body env cl cf' v) as [[x|e'] t]; simpl in Hb;
      [discriminate|].
    injection Hb as ->. now rewrite He. }
  apply start_not_resolved. unfold resolve.
  rewrite (bind_ok _ _ _ _ Hload). cbn [fst snd].
  rewrite (bind_ok _ _ _ _ Hv). cbn [fst snd].
  now rewrite (bind_raise _ _ _ _ Hstep).
Qed.

(** X4. The prebuilt path in full.  The class is looked up under the stripped
    identifier and called with the config file and the retriever; the
    server is started on the object built, as the last action, and [start]
    then returns [None].  Nothing on this path is inside a [try]: an
    exception of the lookup, of the constructor or of the server, a
    [ValueError] included, is the outcome of [start]. *)
Theorem start_prebuilt_model env cf cf' cl v r t m :
  resolve env cf = (Ok (cf', cl, v, r), t) ->
  get_config_section_name env cl MODEL_CONFIG_KEY = Ok (Some m) ->
  strip m <> CUSTOM_MODEL_KEY_NAME ->
  In (strip m) (AVAILABLE_MODEL_MAPS_keys env) ->
  start env cf =
    let t' := t ++ [CallSectionName cl MODEL_CONFIG_KEY;
                    TestPrebuilt (strip m); CallGetModelClass (strip m)] in
    match get_model_class env (strip m) with
    | Raise e => (Raise e, t')
    | Ok cls =>
        match cls cf' r with
        | Raise e => (Raise e, t' ++ [CallModelInit cf' r])
        | Ok model_class =>
            (res_map (fun _ => RetNone) (run_http_server env model_class),
             t' ++ [CallModelInit cf' r; CallRunHttpServer model_class])
        end
    end.
Proof.
  intros Hres Hm Hc Hk.
  rewrite (start_after_resolve _ _ _ _ _ _ _ Hres).
  apply String.eqb_neq in Hc. apply in_keys_In in Hk.
  unfold model_step. rewrite Hm. unfold_monad. cbn [fst snd app].
  rewrite Hc. cbn [fst snd app]. rewrite Hk. cbn [negb].
  destruct (get_model_class env (strip m)) as [cls|e]; cbn [fst snd app];
    [|reflexivity].
  destruct (cls cf' r) as [mc|e]; cbn [fst snd app];
    [|now rewrite <- app_assoc].
  destruct (run_http_server env mc) as [[]|e]; cbn [fst snd app res_map];
    now rewrite <- app_assoc.
Qed.

(** X5. The model section is mandatory.  When the loader has no name for it
    (it returns [None]) [start] ends with an [AttributeError] from
    [model.strip()]; when reading it raises, a [ValueError] included,
    [start] ends with that exception.  Either way both optional steps have
    run before, and neither the model registry nor the custom runner is
    used. *)
Theorem start_model_section_missing env cf cf' cl v r t :
  resolve env cf = (Ok (cf', cl, v, r), t) ->
  (get_config_section_name env cl MODEL_CONFIG_KEY = Ok None ->
   start env cf =
     (Raise (OtherError "AttributeError"
               "'NoneType' object has no attribute 'strip'"),
      t ++ [CallSectionName cl MODEL_CONFIG_KEY])) /\
  (forall e,
      get_config_section_name env cl MODEL_CONFIG_KEY = Raise e ->
      start env cf = (Raise e, t ++ [CallSectionName cl MODEL_CONFIG_KEY])).
Proof.
  intros Hres. rewrite (start_after_resolve _ _ _ _ _ _ _ Hres).
  unfold model_step. split.
  - intros Hm. rewrite Hm. reflexivity.
  - intros e Hm. rewrite Hm. reflexivity.
Qed.

(** X6. A model identifier that is empty or all whitespace is compared as the
    empty string: it is not the custom sentinel, and unless the empty
    string is a prebuilt key [start] ends with the unknown-model error. *)
Theorem start_blank_model env cf cf' cl v r t m :
  resolve env cf = (Ok (cf', cl, v, r), t) ->
  get_config_section_name env cl MODEL_CONFIG_KEY = Ok (Some m) ->
  all_space m = true ->
  ~ In EmptyString (AVAILABLE_MODEL_MAPS_keys env) ->
  start env cf =
    (Raise (GenAIStackException
              "Unkown Prebuilt Model Provided. Checkout how to run a custom model with GenAI Stack."),
     t ++ [CallSectionName cl MODEL_CONFIG_KEY; TestPrebuilt EmptyString]).
Proof.
  intros Hres Hm Hsp Hk.
  assert (Hs : strip m = EmptyString).
  { unfold strip. now rewrite (lstrip_all_space m Hsp). }
  rewrite (start_after_resolve _ _ _ _ _ _ _ Hres).
  rewrite (model_step_unknown env cl cf' r m Hm); rewrite ?Hs;
    [reflexivity | discriminate | exact Hk].
Qed.

(** X7. A run of [start] that reached the model section without writing a log
    line was given its config file and has both optional components: every
    degradation, and the generated default, is announced by a warning. *)
Theorem start_quiet_run_is_complete env cf cf' cl v r t :
  resolve env cf = (Ok (cf', cl, v, r), t) ->
  count is_log (snd (start env cf)) = 0 ->
  cf' = cf /\ is_some v = true /\ is_some r = true.
Proof.
  intros Hres Hq.
  rewrite (start_after_resolve _ _ _ _ _ _ _ Hres) in Hq. cbn [snd] in Hq.
  rewrite count_app in Hq.
  assert (Ht : count is_log t = 0) by lia. clear Hq.
  revert Hres Ht.
  unfold resolve, load_config, vectordb_step, retriever_step, vectordb_body,
    retriever_body.
  run_all; intros Hres Ht; try discriminate Hres;
    injection Hres as <- <- <- <- <-; try discriminate Ht; auto.
Qed.

(** X8. Given a config file that loads, [start] and [etl] begin with the same
    calls: the config load, then the vector database step up to the point
    where its body ends. *)
Theorem start_etl_same_vectordb_calls env cf cl :
  py_not cf = false ->
  ConfigLoader env cf = Ok cl ->
  exists t1 t2,
    snd (start env cf) =
      (CallConfigLoader cf :: snd (vectordb_body env cl cf)) ++ t1 /\
    snd (etl env cf) =
      (CallConfigLoader cf :: snd (vectordb_body env cl cf)) ++ t2.
Proof.
  intros Hn Hl.
  pose proof (load_config_given env cf Hn) as Hc.
  rewrite Hl in Hc. cbn [res_map] in Hc.
  rewrite (start_trace_steps _ _ _ _ _ Hc), (etl_loaded _ _ _ Hl).
  rewrite vectordb_step_body.
  destruct (vectordb_body env cl cf) as [[x|e] t]; cbn [fst snd].
  - eexists. exists [CallRunEtlLoader cf x]. split; reflexivity.
  - destruct (is_ValueError e); cbn [fst snd].
    + eexists. eexists. split; [|reflexivity].
      cbn [app]. rewrite <- app_assoc. reflexivity.
    + eexists. exists []. split; [|reflexivity].
      cbn [app]. now rewrite !app_nil_r.
Qed.

End CliFacts.

(** * Properties of [list_models] and [install] *)

(** ** Decimal numbers *)

Fixpoint no_dot (s : string) : bool :=
  match s with
  | EmptyString => true
  | String c s' => negb (Ascii.eqb c "."%char) && no_dot s'
  end.

Lemma string_of_uint_no_dot d : no_dot (NilEmpty.string_of_uint d) = true.
Proof. induction d; simpl; auto. Qed.

Lemma dot_separates u v x y :
  no_dot u = true -> no_dot v = true ->
  (u ++ String "."%char x)%string = (v ++ String "."%char y)%string ->
  u = v.
Proof.
  revert v. induction u as [|c u IH]; intros [|c' v] Hu Hv H; simpl in *.
  - reflexivity.
  - injection H as <- _. now rewrite Ascii.eqb_refl in Hv.
  - injection H as -> _. now rewrite Ascii.eqb_refl in Hu.
  - injection H as <- H.
    apply andb_true_iff in Hu as [_ Hu]. apply andb_true_iff in Hv as [_ Hv].
    f_equal. now apply IH.
Qed.

Lemma str_of_nat_inj a b : str_of_nat a = str_of_nat b -> a = b.
Proof.
  unfold str_of_nat. intros H.
  assert (Hu : Nat.to_uint a = Nat.to_uint b).
  { pose proof (NilEmpty.usu (Nat.to_uint a)) as Ha.
    pose proof (NilEmpty.usu (Nat.to_uint b)) as Hb.
    rewrite H in Ha. rewrite Ha in Hb. now injection Hb. }
  rewrite <- (Unsigned.of_to a), <- (Unsigned.of_to b). now rewrite Hu.
Qed.

(** A numbered line determines its number, whatever follows the dot. *)
Lemma numbered_line_inj a b x y :
  (str_of_nat a ++ ". " ++ x)%string = (str_of_nat b ++ ". " ++ y)%string ->
  a = b.
Proof.
  intros H. apply str_of_nat_inj.
  apply (dot_separates _ _ (" " ++ x)%string (" " ++ y)%string);
    [apply string_of_uint_no_dot | apply string_of_uint_no_dot | exact H].
Qed.

(** ** Braces *)



Section CommandFacts.

Context {Component Sub InstallerObj File Options : Type}.
Implicit Types pkg : @Package Component Sub InstallerObj File Options.
Implicit Types models : list string.

(** ** [list_models] *)

Lemma echo_models_lines models :
  forall indx,
    fst (@echo_models Component Sub InstallerObj File Options indx models)
      = Ok tt /\
    length (snd (@echo_models Component Sub InstallerObj File Options
                   indx models)) = length models /\
    forall i model,
      nth_error models i = Some model ->
      nth_error (snd (@echo_models Component Sub InstallerObj File Options
                        indx models)) i
        = Some (Echo (str_of_nat (indx + i + 1) ++ ". " ++ model)%string).
Proof.
  induction models as [|m rest IH]; intros indx; simpl.
  - split; [reflexivity|]. split; [reflexivity|].
    intros [|i] x H; discriminate H.
  - destruct (IH (S indx)) as [Hr [Hl Hn]].
    destruct (echo_models (S indx) rest) as [r t]. simpl in *.
    split; [exact Hr|]. split; [now rewrite Hl|].
    intros [|i] x H; simpl in *.
    + injection H as <-. now rewrite Nat.add_0_r.
    + replace (indx + S i + 1) with (S indx + i + 1) by lia.
      exact (Hn i x H).
Qed.

Lemma list_models_run pkg models :
  list_supported_models pkg = Ok models ->
  exists lines,
    list_models pkg =
      (Ok tt,
       Echo ("Available List of models" ++ NL)%string
       :: CallListSupportedModels :: lines) /\
    length lines = length models /\
    forall i model,
      nth_error models i = Some model ->
      nth_error lines i
        = Some (Echo (str_of_nat (i + 1) ++ ". " ++ model)%string).
Proof.
  intros Hm. unfold list_models. rewrite Hm.
  destruct (echo_models_lines models 0) as [Hr [Hl Hn]].
  exists (snd (@echo_models Component Sub InstallerObj File Options 0 models)).
  split; [|split; [exact Hl | exact Hn]].
  unfold and_then, click_echo, perform.
  destruct (echo_models 0 models) as [r t]. simpl in *. now rewrite Hr.
Qed.

(** X9. [list_models] echoes the header, asks for the models, then echoes one
    line per model, in the order given, the line at position [i] (from 0)
    being the number [i + 1], a dot, a space and the model; with no model
    the header is all there is.  When the list cannot be had, the header
    has been echoed already and the exception is the outcome. *)
Theorem list_models_numbered pkg :
  match list_supported_models pkg with
  | Ok models =>
      exists lines,
        list_models pkg =
          (Ok tt,
           Echo ("Available List of models" ++ NL)%string
           :: CallListSupportedModels :: lines) /\
        length lines = length models /\
        forall i model,
          nth_error models i = Some model ->
          nth_error lines i
            = Some (Echo (str_of_nat (i + 1) ++ ". " ++ model)%string)
  | Raise e =>
      list_models pkg =
        (Raise e,
         [Echo ("Available List of models" ++ NL)%string;
          CallListSupportedModels])
  end.
Proof.
  destruct (list_supported_models pkg) as [models|e] eqn:Hm.
  - now apply list_models_run.
  - unfold list_models. now rewrite Hm.
Qed.

(** X10. No two lines of the listing are the same text, even when a model
    appears twice: the number tells them apart. *)
Theorem list_models_lines_distinct pkg models r t i j line :
  list_supported_models pkg = Ok models ->
  list_models pkg = (r, t) ->
  nth_error t (2 + i) = Some (Echo line) ->
  nth_error t (2 + j) = Some (Echo line) ->
  i = j.
Proof.
  intros Hm Hrun Hi Hj.
  destruct (list_models_run pkg models Hm) as (lines & Hl & Hlen & Hn).
  rewrite Hl in Hrun. injection Hrun as _ <-. simpl in Hi, Hj.
  assert (Hlt : forall k x, nth_error lines k = Some x -> k < length models).
  { intros k x H. rewrite <- Hlen. apply nth_error_Some. now rewrite H. }
  destruct (nth_error models i) as [mi|] eqn:Ei;
    [|apply nth_error_None in Ei; apply Hlt in Hi; lia].
  destruct (nth_error models j) as [mj|] eqn:Ej;
    [|apply nth_error_None in Ej; apply Hlt in Hj; lia].
  rewrite (Hn _ _ Ei) in Hi. rewrite (Hn _ _ Ej) in Hj.
  injection Hi as Hi. injection Hj as Hj. rewrite <- Hj in Hi.
  apply numbered_line_inj in Hi. lia.
Qed.

(** ** [install] *)

Ltac split_run :=
  match goal with
  | |- context [match ?x with _ => _ end] =>
      lazymatch x with
      | context [match _ with _ => _ end] => fail
      | _ => destruct x eqn:?
      end
  end.

Ltac unfold_run :=
  unfold with_open, click_echo, lift, perform, and_then, done.

(** X11. Without [--list-components], [install] acts only when component and
    subcomponent are both given and non-empty and either [--quickstart] or
    a non-empty config file is given; otherwise it returns at once, with no
    message and no call. *)
Theorem install_nothing_to_do pkg component subcomponent quickstart
    config_file :
  py_not component || py_not subcomponent
  || (negb quickstart && py_not config_file) = true ->
  install pkg component subcomponent false quickstart config_file
    = (Ok tt, []).
Proof.
  unfold install. unfold_run. cbn [component_bool subcomponent_bool].
  destruct component as [[|a x]|], subcomponent as [[|b y]|], quickstart,
    config_file as [[|c z]|]; simpl; intros H; try discriminate H;
    reflexivity.
Qed.

Lemma install_trace_no_open pkg component subcomponent list_components :
  forallb (fun a => negb (is_open a))
    (snd (install pkg component subcomponent list_components true None))
  = true.
Proof.
  unfold install. unfold_run.
  repeat (split_run; cbn [fst snd app]); reflexivity.
Qed.

(** X12. With [--quickstart] the config file plays no part: the run is the same
    whatever file is named, and no file is opened. *)
Theorem install_quickstart_ignores_config pkg component subcomponent
    list_components config_file :
  install pkg component subcomponent list_components true config_file
    = install pkg component subcomponent list_components true None /\
  tally is_open
    (snd (install pkg component subcomponent list_components true
            config_file)) = 0.
Proof.
  assert (H : install pkg component subcomponent list_components true
                config_file
              = install pkg component subcomponent list_components true None)
    by reflexivity.
  split; [exact H|]. rewrite H.
  pose proof (install_trace_no_open pkg component subcomponent
                list_components) as Hno.
  unfold tally.
  induction (snd (install pkg component subcomponent list_components true
                    None)) as [|a t IH]; [reflexivity|].
  simpl in *. apply andb_true_iff in Hno as [Ha Ht].
  destruct (is_open a); [discriminate Ha | auto].
Qed.

(** X13. Without [--list-components], with component, subcomponent and a
    config file, and no [--quickstart], the file is opened first.  When it cannot be opened
    nothing else happens.  When it is open, it is parsed, the installer is
    built with the parsed options and run while the file is still open,
    and the file is closed exactly once, as the last action, also when
    parsing, building or installing raises. *)
Theorem install_options_file_closed pkg component subcomponent c path :
  py_not component = false -> py_not subcomponent = false ->
  let config_file := String c path in
  let run :=
    install pkg component subcomponent false false (Some config_file) in
  match open_read pkg config_file with
  | Raise e => run = (Raise e, [CallOpen config_file])
  | Ok file =>
      exists t,
        snd run = CallOpen config_file :: CallJsonLoad file
                  :: t ++ [CloseFile file] /\
        tally is_close (snd run) = 1 /\
        match json_load pkg file with
        | Raise e => fst run = Raise e /\ t = []
        | Ok options =>
            exists rest,
              t = CallInstaller (GivenComponent component)
                    (GivenSubcomponent subcomponent) (WithOptions options)
                  :: rest
        end
  end.
Proof.
  intros Hc Hs config_file run. subst run config_file.
  unfold install. unfold_run.
  cbn [component_bool subcomponent_bool]. rewrite Hc, Hs. cbn [negb andb].
  destruct (open_read pkg (String c path)) as [file|e]; [|reflexivity].
  destruct (json_load pkg file) as [options|e]; cbn [fst snd app].
  - destruct (new_Installer pkg (GivenComponent component)
                (GivenSubcomponent subcomponent) (WithOptions options))
      as [installer|e]; cbn [fst snd app].
    + exists [CallInstaller (GivenComponent component)
                (GivenSubcomponent subcomponent) (WithOptions options);
              CallInstall installer].
      destruct (installer_install pkg installer) as [[]|e]; cbn [fst snd app];
        (split; [reflexivity|]; split; [reflexivity|];
         eexists; reflexivity).
    + exists [CallInstaller (GivenComponent component)
                (GivenSubcomponent subcomponent) (WithOptions options)].
      split; [reflexivity|]. split; [reflexivity|].
      eexists; reflexivity.
  - exists []. split; [reflexivity|]. split; [reflexivity|]. now split.
Qed.

(** *** The listing loops *)



Lemma components_loop_fails pkg c post e pre :
  forall idx str comp sub,
    (forall c', In c' pre -> exists subs, AVAILABLE_COMPONENTS pkg c' = Ok subs) ->
    AVAILABLE_COMPONENTS pkg c = Raise e ->
    components_loop pkg idx (pre ++ c :: post) str comp sub = Raise e.
Proof.
  induction pre as [|c0 pre IH]; intros idx str comp sub Hpre He; simpl.
  - now rewrite He.
  - destruct (Hpre c0 (or_introl eq_refl)) as [subs ->].
    destruct (subcomponents_loop pkg subs _ sub).
    apply IH; [|exact He]. intros c' Hc'. apply Hpre. now right.
Qed.


(** X14. With [--list-components], a member of [Components] that has no entry
    in [AVAILABLE_COMPONENTS] ends [install] with the [KeyError] of the
    first such member: the header has been echoed, the listing is not, and
    nothing is installed. *)
Theorem install_listing_key_error pkg pre c post e component subcomponent
    quickstart config_file :
  Components pkg = pre ++ c :: post ->
  (forall c', In c' pre -> exists subs, AVAILABLE_COMPONENTS pkg c' = Ok subs) ->
  AVAILABLE_COMPONENTS pkg c = Raise e ->
  install pkg component subcomponent true quickstart config_file
    = (Raise e, [Echo "Available components for installation"]).
Proof.
  intros Hm Hpre He. unfold install. rewrite Hm.
  rewrite (components_loop_fails pkg c post e pre _ _ _ _ Hpre He).
  reflexivity.
Qed.


End CommandFacts.

(** ** The properties on the concrete installation *)

Lemma start_custom_model_witness :
  exists cf' cl v r t,
    resolve Demo.here (Some "custom.json") = (Ok (cf', cl, v, r), t) /\
    get_config_section_name Demo.here cl MODEL_CONFIG_KEY
      = Ok (Some CUSTOM_MODEL_KEY_NAME) /\
    start Demo.here (Some "custom.json") =
      (res_map RetCustom (run_custom_model Demo.here cl r cf'),
       t ++ [CallSectionName cl MODEL_CONFIG_KEY;
             CallRunCustomModel cl r cf']) /\
    count registry_model_event (snd (start Demo.here (Some "custom.json"))) = 0 /\
    count is_custom_call (snd (start Demo.here (Some "custom.json"))) = 1.
Proof.
  do 5 eexists.
  split; [reflexivity|]. split; [reflexivity|].
  eapply start_custom_model; reflexivity.
Defined.

Lemma start_unknown_model_witness :
  exists cf' cl v r t,
    resolve Demo.here (Some "unknown.json") = (Ok (cf', cl, v, r), t) /\
    get_config_section_name Demo.here cl MODEL_CONFIG_KEY = Ok (Some "llama") /\
    strip "llama" <> CUSTOM_MODEL_KEY_NAME /\
    ~ In (strip "llama") (AVAILABLE_MODEL_MAPS_keys Demo.here) /\
    fst (start Demo.here (Some "unknown.json")) =
      Raise (GenAIStackException
               "Unkown Prebuilt Model Provided. Checkout how to run a custom model with GenAI Stack.") /\
    count is_model_init (snd (start Demo.here (Some "unknown.json"))) = 0.
Proof.
  assert (Hc : strip "llama" <> CUSTOM_MODEL_KEY_NAME) by (vm_compute; discriminate).
  assert (Hk : ~ In (strip "llama") (AVAILABLE_MODEL_MAPS_keys Demo.here)).
  { vm_compute. intros [H|[H|[]]]; discriminate. }
  do 5 eexists.
  split; [reflexivity|]. split; [reflexivity|].
  split; [exact Hc|]. split; [exact Hk|].
  destruct (start_unknown_model Demo.here (Some "unknown.json") _ _ _ _ _ "llama"
              eq_refl eq_refl Hc Hk) as [Hs [_ [Hi _]]].
  split; [now rewrite Hs | exact Hi].
Defined.

(** C3, as worded for every failure, does not hold: when the weaviate
    server refuses the connection, the constructor raises an exception
    that is no [ValueError], and [start] stops there. *)
Lemma start_vectordb_other_error_aborts :
  ~ tolerates_any_vectordb_failure Demo.here (Some "weaviate.json").
Proof.
  intros H.
  destruct (H (Some "weaviate.json") _ _
              (OtherError "ConnectionError" "connection refused")
              eq_refl eq_refl) as [Hw _].
  vm_compute in Hw.
  repeat (destruct Hw as [Hw|Hw]; [discriminate Hw|]). exact Hw.
Qed.

Lemma start_vectordb_degrades_witness :
  exists cf' cl t0 e,
    load_config Demo.here (Some "novectordb.json") = (Ok (cf', cl), t0) /\
    fst (vectordb_body Demo.here cl cf') = Raise e /\
    is_ValueError e = true /\
    vectordb_step Demo.here cl cf' =
      (Ok None,
       snd (vectordb_body Demo.here cl cf') ++
       [LogWarning (" Failed to Initialize VectorDB - " ++ exc_str e)%string]) /\
    (forall c x,
        In (CallRetrieverInit c x)
           (snd (start Demo.here (Some "novectordb.json"))) ->
        c = cf' /\ x = None).
Proof.
  do 4 eexists.
  split; [reflexivity|]. split; [reflexivity|]. split; [reflexivity|].
  destruct (start_vectordb_degrades Demo.here (Some "novectordb.json")
              _ _ _ _ eq_refl eq_refl eq_refl) as [H1 [_ H3]].
  split; [exact H1 | exact H3].
Defined.

(** C4, as worded for every failure, does not hold: the [strict] retriever
    raises an [AttributeError] when it is given no vector database, and
    [start] stops there. *)
Lemma start_retriever_other_error_aborts :
  ~ tolerates_any_retriever_failure Demo.here (Some "strict.json").
Proof.
  intros H.
  destruct (H (Some "strict.json") _ _ None _
              (OtherError "AttributeError"
                 "here: 'NoneType' object has no attribute 'search'")
              eq_refl eq_refl eq_refl) as [Hw _].
  vm_compute in Hw.
  repeat (destruct Hw as [Hw|Hw]; [discriminate Hw|]). exact Hw.
Qed.

Lemma start_retriever_degrades_witness :
  exists cf' cl t0 v t1 e,
    load_config Demo.here (Some "noretriever.json") = (Ok (cf', cl), t0) /\
    vectordb_step Demo.here cl cf' = (Ok v, t1) /\
    fst (retriever_body Demo.here cl cf' v) = Raise e /\
    is_ValueError e = true /\
    (forall c x,
        In (CallModelInit c x)
           (snd (start Demo.here (Some "noretriever.json"))) ->
        c = cf' /\ x = None).
Proof.
  do 6 eexists.
  split; [reflexivity|]. split; [reflexivity|]. split; [reflexivity|].
  split; [reflexivity|].
  destruct (start_retriever_degrades Demo.here (Some "noretriever.json")
              _ _ _ _ _ _ eq_refl eq_refl eq_refl eq_refl) as [_ [_ [H3 _]]].
  exact H3.
Defined.

(** C5, as worded for every failure, does not hold: a refused connection
    is fatal for [etl] as well, but nothing is logged before the exception
    leaves. *)
Lemma etl_other_error_not_logged :
  ~ etl_logs_any_vectordb_failure Demo.here (Some "weaviate.json").
Proof.
  intros H.
  destruct (H _ (OtherError "ConnectionError" "connection refused")
              eq_refl eq_refl) as [_ [Hlog _]].
  vm_compute in Hlog. inversion Hlog.
Qed.

Lemma etl_vectordb_failure_witness :
  exists cl e,
    ConfigLoader Demo.here (Some "novectordb.json") = Ok cl /\
    fst (vectordb_body Demo.here cl (Some "novectordb.json")) = Raise e /\
    fst (etl Demo.here (Some "novectordb.json")) = Raise e /\
    count is_etl_loader_call (snd (etl Demo.here (Some "novectordb.json"))) = 0.
Proof.
  do 2 eexists.
  split; [reflexivity|]. split; [reflexivity|].
  destruct (etl_vectordb_failure Demo.here (Some "novectordb.json") _ eq_refl)
    as [H _].
  destruct (H _ eq_refl) as [H1 H2].
  split; [now rewrite H1 | exact H2].
Defined.

(** C6, as worded for both commands, does not hold: [etl] without a config
    file never generates a default. *)
Lemma etl_generates_no_default :
  ~ defaults_before_loading (snd (etl Demo.here None)).
Proof.
  intros [t1 [t2 [H _]]].
  assert (Hin : In CallCreateDefault (snd (etl Demo.here None))).
  { rewrite H. apply in_elt. }
  vm_compute in Hin.
  repeat (destruct Hin as [Hin|Hin]; [discriminate Hin|]). exact Hin.
Qed.

Lemma etl_only_vectordb_witness :
  count uses_retriever (snd (etl Demo.here (Some "full.json"))) = 0 /\
  count model_event (snd (etl Demo.here (Some "full.json"))) = 0 /\
  etl Demo.here (Some "full.json") =
    (Ok tt,
     [CallConfigLoader (Some "full.json");
      CallSectionName
        [("vectordb", "chromadb"); ("retriever", "langchain");
         ("model", "gpt3.5")] VECTORDB_CONFIG_KEY;
      CallGetVectordbClass (Some "chromadb");
      CallVectordbInit (Some "full.json");
      CallRunEtlLoader (Some "full.json") "here/chromadb:full.json"]).
Proof.
  destruct (etl_only_vectordb Demo.here (Some "full.json"))
    as [_ [Hr [Hm [_ Hrun]]]].
  split; [exact Hr|]. split; [exact Hm|].
  exact (Hrun _ _ eq_refl eq_refl).
Defined.

Lemma start_resolution_order_witness :
  exists cf' cl t0 v t1 r t2,
    load_config Demo.here (Some "full.json") = (Ok (cf', cl), t0) /\
    vectordb_step Demo.here cl cf' = (Ok v, t1) /\
    retriever_step Demo.here cl cf' v = (Ok r, t2) /\
    Forall (fun p => count p (snd (start Demo.here (Some "full.json"))) <= 1)
           resolution_actions /\
    Forall (fun p => count p (snd (start Demo.here (Some "full.json"))) = 1)
           [ is_section_read VECTORDB_CONFIG_KEY; is_vectordb_lookup;
             is_vectordb_init;
             is_section_read RETRIEVER_CONFIG_KEY; is_retriever_lookup;
             is_retriever_init;
             is_section_read MODEL_CONFIG_KEY; is_prebuilt_test;
             is_model_lookup; is_model_init; is_server_start ] /\
    In (CallRetrieverInit cf' v) (snd (start Demo.here (Some "full.json"))) /\
    In (CallModelInit cf' r) (snd (start Demo.here (Some "full.json"))).
Proof.
  destruct (start_resolution_order Demo.here (Some "full.json"))
    as [_ [Honce [_ [_ H]]]].
  do 7 eexists.
  split; [reflexivity|]. split; [reflexivity|]. split; [reflexivity|].
  split; [exact Honce|].
  destruct (H _ _ _ eq_refl) as [_ [Hvs [Hvd Hret]]].
  destruct (Hvd _ eq_refl) as [Hvl [_ Hvk]].
  destruct (Hvk _ eq_refl) as [Hvi _].
  destruct (Hret _ _ eq_refl) as [_ [Hrs [Hrd Hmod]]].
  destruct (Hrd _ eq_refl) as [Hrl [_ Hrk]].
  destruct (Hrk _ eq_refl) as [Hri Hrin].
  destruct (Hmod _ _ eq_refl) as [_ [Hms Hm]].
  pose proof (Hm "gpt3.5" eq_refl) as Hp.
  assert (E : String.eqb (strip "gpt3.5") CUSTOM_MODEL_KEY_NAME = false)
    by reflexivity.
  rewrite E in Hp. destruct Hp as [Hmt [_ Hkeys]].
  assert (Hin : In (strip "gpt3.5") (AVAILABLE_MODEL_MAPS_keys Demo.here))
    by (left; reflexivity).
  destruct (Hkeys Hin) as [Hml [_ Hcls]].
  destruct (Hcls _ eq_refl) as [Hmi [Hmin Hsrv]].
  destruct (Hsrv _ eq_refl) as [Hss _].
  split; [|split; [exact Hrin | exact Hmin]].
  repeat (constructor; [assumption|]). constructor.
Defined.

Lemma start_model_name_stripped_witness :
  all_space "  " = true /\ all_space " " = true /\
  start (with_model_name Demo.here (Some "  gpt4all ")) (Some "default.json")
    = start (with_model_name Demo.here (Some "gpt4all")) (Some "default.json") /\
  exists cf' cl v rt t,
    resolve Demo.here (Some "full.json") = (Ok (cf', cl, v, rt), t) /\
    In "gpt4all" (AVAILABLE_MODEL_MAPS_keys Demo.here) /\
    bare "gpt4all" = true /\ "gpt4all" <> CUSTOM_MODEL_KEY_NAME /\
    start (with_model_name Demo.here (Some "  custom ")) (Some "full.json") =
      (Ok (RetCustom 3),
       t ++ [CallSectionName cl MODEL_CONFIG_KEY;
             CallRunCustomModel cl rt cf']) /\
    exists t',
      snd (start (with_model_name Demo.here (Some "  gpt4all "))
             (Some "full.json")) =
        t ++ CallSectionName cl MODEL_CONFIG_KEY :: TestPrebuilt "gpt4all"
          :: CallGetModelClass "gpt4all" :: t'.
Proof.
  split; [reflexivity|]. split; [reflexivity|].
  split.
  { exact (proj1 (start_model_name_stripped Demo.here (Some "default.json")
                    "  " "gpt4all" " " eq_refl eq_refl)). }
  assert (Hk : In "gpt4all" (AVAILABLE_MODEL_MAPS_keys Demo.here))
    by (right; left; reflexivity).
  assert (Hne : "gpt4all" <> CUSTOM_MODEL_KEY_NAME) by discriminate.
  do 5 eexists.
  split; [reflexivity|]. split; [exact Hk|]. split; [reflexivity|].
  split; [exact Hne|].
  destruct (proj2 (start_model_name_stripped Demo.here (Some "full.json")
                     "  " "gpt4all" " " eq_refl eq_refl)
              _ _ _ _ _ eq_refl) as [_ [_ [Hcustom Hkey]]].
  split; [exact Hcustom|].
  exact (Hkey "gpt4all" Hk eq_refl Hne).
Defined.

(** The two machines are the same installation. *)
Lemma here_there_stable : stable_registry Demo.here Demo.there.
Proof.
  constructor; unfold Demo.here, Demo.there, Demo.env;
    cbn [create_default_model_json_file ConfigLoader get_config_section_name
         get_vectordb_class get_retriever_class AVAILABLE_MODEL_MAPS_keys].
  - reflexivity.
  - intros [c|]; [|exact I].
    destruct (Demo.lookup c Demo.files); [exact I | reflexivity].
  - intros [c|] cl1 cl2 k.
    + destruct (Demo.lookup c Demo.files); [|discriminate].
      intros [= <-] [= <-]. reflexivity.
    + intros [= <-] [= <-]. reflexivity.
  - intros n.
    destruct (Demo.named n "chromadb"); [exact I|].
    destruct (Demo.named n "weaviate"); [exact I | reflexivity].
  - intros n k1 k2 c.
    destruct (Demo.named n "chromadb");
      [intros [= <-] [= <-]; exact I|].
    destruct (Demo.named n "weaviate"); [|discriminate].
    intros [= <-] [= <-]. reflexivity.
  - intros n.
    destruct (Demo.named n "langchain"); [exact I|].
    destruct (Demo.named n "strict"); [exact I | reflexivity].
  - intros n k1 k2 c v1 v2.
    destruct (Demo.named n "langchain");
      [intros [= <-] [= <-] _; exact I|].
    destruct (Demo.named n "strict"); [|discriminate].
    intros [= <-] [= <-].
    destruct v1, v2; intros Hv; try discriminate Hv; [exact I | reflexivity].
  - reflexivity.
Qed.

Lemma start_outcome_stable_witness :
  stable_registry Demo.here Demo.there /\
  resolution_pattern Demo.here (Some "full.json")
    = resolution_pattern Demo.there (Some "full.json") /\
  model_path Demo.here (Some "full.json")
    = model_path Demo.there (Some "full.json") /\
  snd (start Demo.here (Some "full.json"))
    <> snd (start Demo.there (Some "full.json")).
Proof.
  split; [exact here_there_stable|].
  destruct (start_outcome_stable Demo.here Demo.there (Some "full.json")
              here_there_stable) as [Hp Hm].
  split; [exact Hp|]. split; [exact Hm|].
  vm_compute. discriminate.
Defined.

Lemma config_file_defaulting_witness :
  defaults_before_loading (snd (start Demo.here None)) /\
  (exists t,
      snd (start Demo.here None) =
        LogWarning "No Config file provided, creating a default one."
        :: CallCreateDefault :: CallConfigLoader (Some "default.json") :: t) /\
  (exists t, snd (etl Demo.here None) = CallConfigLoader None :: t) /\
  count is_create_default (snd (etl Demo.here None)) = 0.
Proof.
  destruct (config_file_defaulting Demo.here None) as [[Hd Hs] [He [Hc _]]].
  split; [exact Hd|]. split; [exact Hs|]. split; [exact He | exact Hc].
Defined.

(** ** The further properties on the concrete installation *)

Lemma config_load_failure_is_fatal_witness :
  ConfigLoader Demo.here (Some "absent.json")
    = Raise (OtherError "FileNotFoundError" "here: absent.json") /\
  etl Demo.here (Some "absent.json")
    = (Raise (OtherError "FileNotFoundError" "here: absent.json"),
       [CallConfigLoader (Some "absent.json")]) /\
  start Demo.here (Some "absent.json")
    = (Raise (OtherError "FileNotFoundError" "here: absent.json"),
       [CallConfigLoader (Some "absent.json")]).
Proof.
  split; [reflexivity|].
  destruct (config_load_failure_is_fatal Demo.here (Some "absent.json") _
              eq_refl) as [He Hs].
  split; [exact He | exact (Hs eq_refl)].
Defined.

Lemma default_config_load_failure_is_fatal_witness :
  py_not None = true /\
  create_default_model_json_file Demo.sparse = Ok "default.json" /\
  fst (start Demo.sparse None)
    = Raise (OtherError "FileNotFoundError" "here: default.json").
Proof.
  split; [reflexivity|]. split; [reflexivity|].
  now rewrite (default_config_load_failure_is_fatal Demo.sparse None
                 "default.json" _ eq_refl eq_refl eq_refl).
Defined.

Lemma start_vectordb_error_propagates_witness :
  exists cf' cl t0 e,
    load_config Demo.here (Some "weaviate.json") = (Ok (cf', cl), t0) /\
    fst (vectordb_body Demo.here cl cf') = Raise e /\
    is_ValueError e = false /\
    start Demo.here (Some "weaviate.json")
      = (Raise e, t0 ++ snd (vectordb_body Demo.here cl cf')).
Proof.
  do 4 eexists.
  split; [reflexivity|]. split; [reflexivity|]. split; [reflexivity|].
  eapply start_vectordb_error_propagates; reflexivity.
Defined.

Lemma start_retriever_error_propagates_witness :
  exists cf' cl t0 v t1 e,
    load_config Demo.here (Some "strict.json") = (Ok (cf', cl), t0) /\
    vectordb_step Demo.here cl cf' = (Ok v, t1) /\
    fst (retriever_body Demo.here cl cf' v) = Raise e /\
    is_ValueError e = false /\
    start Demo.here (Some "strict.json")
      = (Raise e, t0 ++ t1 ++ snd (retriever_body Demo.here cl cf' v)).
Proof.
  do 6 eexists.
  split; [reflexivity|]. split; [reflexivity|]. split; [reflexivity|].
  split; [reflexivity|].
  eapply start_retriever_error_propagates; reflexivity.
Defined.

Lemma start_prebuilt_model_witness :
  exists cf' cl v r t,
    resolve Demo.here (Some "padded.json") = (Ok (cf', cl, v, r), t) /\
    get_config_section_name Demo.here cl MODEL_CONFIG_KEY
      = Ok (Some "  gpt4all ") /\
    strip "  gpt4all " <> CUSTOM_MODEL_KEY_NAME /\
    In (strip "  gpt4all ") (AVAILABLE_MODEL_MAPS_keys Demo.here) /\
    start Demo.here (Some "padded.json") =
      (Ok RetNone,
       t ++ [CallSectionName cl MODEL_CONFIG_KEY; TestPrebuilt "gpt4all";
             CallGetModelClass "gpt4all"; CallModelInit cf' r;
             CallRunHttpServer "here/gpt4all:None"]).
Proof.
  assert (Hc : strip "  gpt4all " <> CUSTOM_MODEL_KEY_NAME)
    by (vm_compute; discriminate).
  assert (Hk : In (strip "  gpt4all ") (AVAILABLE_MODEL_MAPS_keys Demo.here))
    by (vm_compute; auto).
  do 5 eexists.
  split; [reflexivity|]. split; [reflexivity|].
  split; [exact Hc|]. split; [exact Hk|].
  rewrite (start_prebuilt_model Demo.here (Some "padded.json") _ _ _ _ _
             "  gpt4all " eq_refl eq_refl Hc Hk).
  reflexivity.
Defined.

Lemma start_model_section_missing_witness :
  exists cf' cl v r t,
    resolve Demo.sparse (Some "nomodel.json") = (Ok (cf', cl, v, r), t) /\
    get_config_section_name Demo.sparse cl MODEL_CONFIG_KEY = Ok None /\
    start Demo.sparse (Some "nomodel.json") =
      (Raise (OtherError "AttributeError"
                "'NoneType' object has no attribute 'strip'"),
       t ++ [CallSectionName cl MODEL_CONFIG_KEY]).
Proof.
  do 5 eexists.
  split; [reflexivity|]. split; [reflexivity|].
  exact (proj1 (start_model_section_missing Demo.sparse (Some "nomodel.json")
                  _ _ _ _ _ eq_refl) eq_refl).
Defined.

Lemma start_blank_model_witness :
  exists cf' cl v r t,
    resolve Demo.sparse (Some "blank.json") = (Ok (cf', cl, v, r), t) /\
    get_config_section_name Demo.sparse cl MODEL_CONFIG_KEY = Ok (Some "   ") /\
    all_space "   " = true /\
    ~ In EmptyString (AVAILABLE_MODEL_MAPS_keys Demo.sparse) /\
    fst (start Demo.sparse (Some "blank.json")) =
      Raise (GenAIStackException
               "Unkown Prebuilt Model Provided. Checkout how to run a custom model with GenAI Stack.").
Proof.
  assert (Hk : ~ In EmptyString (AVAILABLE_MODEL_MAPS_keys Demo.sparse)).
  { vm_compute. intros [H|[H|[]]]; discriminate. }
  do 5 eexists.
  split; [reflexivity|]. split; [reflexivity|]. split; [reflexivity|].
  split; [exact Hk|].
  now rewrite (start_blank_model Demo.sparse (Some "blank.json") _ _ _ _ _
                 "   " eq_refl eq_refl eq_refl Hk).
Defined.

Lemma start_quiet_run_is_complete_witness :
  exists cf' cl v r t,
    resolve Demo.here (Some "full.json") = (Ok (cf', cl, v, r), t) /\
    count is_log (snd (start Demo.here (Some "full.json"))) = 0 /\
    cf' = Some "full.json" /\ is_some v = true /\ is_some r = true.
Proof.
  do 5 eexists.
  split; [reflexivity|]. split; [reflexivity|].
  exact (start_quiet_run_is_complete Demo.here (Some "full.json") _ _ _ _ _
           eq_refl eq_refl).
Defined.

Lemma start_etl_same_vectordb_calls_witness :
  py_not (Some "full.json") = false /\
  exists cl t1 t2,
    ConfigLoader Demo.here (Some "full.json") = Ok cl /\
    snd (start Demo.here (Some "full.json")) =
      (CallConfigLoader (Some "full.json")
       :: snd (vectordb_body Demo.here cl (Some "full.json"))) ++ t1 /\
    snd (etl Demo.here (Some "full.json")) =
      (CallConfigLoader (Some "full.json")
       :: snd (vectordb_body Demo.here cl (Some "full.json"))) ++ t2.
Proof.
  split; [reflexivity|].
  destruct (start_etl_same_vectordb_calls Demo.here (Some "full.json") _
              eq_refl eq_refl) as (t1 & t2 & H1 & H2).
  eexists. exists t1, t2. split; [reflexivity|]. split; [exact H1 | exact H2].
Defined.

Lemma list_models_numbered_witness :
  exists lines,
    list_models DemoPackage.installed =
      (Ok tt,
       Echo ("Available List of models" ++ NL)%string
       :: CallListSupportedModels :: lines) /\
    length lines = 2 /\
    nth_error lines 1 = Some (Echo "2. gpt4all").
Proof.
  destruct (list_models_numbered DemoPackage.installed)
    as (lines & Hrun & Hlen & Hn).
  exists lines. split; [exact Hrun|]. split; [exact Hlen|].
  exact (Hn 1 "gpt4all" eq_refl).
Defined.

Lemma list_models_lines_distinct_witness :
  let pkg := DemoPackage.pkg (Ok ["gpt3.5"; "gpt3.5"]) [] in
  list_supported_models pkg = Ok ["gpt3.5"; "gpt3.5"] /\
  nth_error (snd (list_models pkg)) (2 + 1) = Some (Echo "2. gpt3.5") /\
  1 = 1.
Proof.
  intros pkg. split; [reflexivity|]. split; [reflexivity|].
  exact (list_models_lines_distinct pkg ["gpt3.5"; "gpt3.5"]
           (fst (list_models pkg)) (snd (list_models pkg)) 1 1 "2. gpt3.5"
           eq_refl eq_refl eq_refl eq_refl).
Defined.

Lemma install_nothing_to_do_witness :
  py_not (Some "vectordb") || py_not None || (negb true && py_not None) = true /\
  install DemoPackage.installed (Some "vectordb") None false true None
    = (Ok tt, []).
Proof.
  split; [reflexivity|].
  exact (install_nothing_to_do DemoPackage.installed (Some "vectordb") None
           true None eq_refl).
Defined.

Lemma install_quickstart_ignores_config_witness :
  install DemoPackage.installed (Some "vectordb") (Some "weaviate") false true
    (Some "options.json")
  = (Ok tt,
     [CallInstaller (GivenComponent (Some "vectordb"))
        (GivenSubcomponent (Some "weaviate")) Quickstart;
      CallInstall "quickstart"]).
Proof.
  rewrite (proj1 (install_quickstart_ignores_config DemoPackage.installed
                    (Some "vectordb") (Some "weaviate") false
                    (Some "options.json"))).
  reflexivity.
Defined.

Lemma install_options_file_closed_witness :
  py_not (Some "vectordb") = false /\ py_not (Some "weaviate") = false /\
  exists t,
    snd (install DemoPackage.installed (Some "vectordb") (Some "weaviate")
           false false (Some "options.json"))
    = CallOpen "options.json" :: CallJsonLoad "options.json"
      :: t ++ [CloseFile "options.json"].
Proof.
  split; [reflexivity|]. split; [reflexivity|].
  destruct (install_options_file_closed DemoPackage.installed
              (Some "vectordb") (Some "weaviate") "o"%char "ptions.json"
              eq_refl eq_refl) as (t & Ht & _).
  exists t. exact Ht.
Defined.

Lemma install_listing_key_error_witness :
  Components DemoPackage.incomplete = ["vectordb"] ++ "memory" :: ["llm_cache"] /\
  AVAILABLE_COMPONENTS DemoPackage.incomplete "memory"
    = Raise (OtherError "KeyError" "memory") /\
  install DemoPackage.incomplete (Some "vectordb") (Some "weaviate") true true
    None
  = (Raise (OtherError "KeyError" "memory"),
     [Echo "Available components for installation"]).
Proof.
  split; [reflexivity|]. split; [reflexivity|].
  apply (install_listing_key_error DemoPackage.incomplete ["vectordb"]
           "memory" ["llm_cache"]); [reflexivity | | reflexivity].
  intros c' [<-|[]]. eexists. reflexivity.
Defined.




